(** * History persister: event-to-document transformation

    A shallow embedding of [history/subscriber/persister.py] (class
    [Persister]) and the properties of its handlers.

    The source is Python 3: [val/1000] is true division, ordering a [str]
    against an [int] raises [TypeError], and dictionaries iterate in insertion
    order.  Values decoded by [json.loads] are modelled by [value]; a
    dictionary is an association list in insertion order.

    Everything the module imports is an interface: the Python builtins on
    numbers and strings, [datetime], [dateutil.parser.parse], [time], [json],
    [pymongo] and the constants of [history.conf].  They are the fields of the
    class [Runtime]; the handlers are written once, over any runtime.

    A method runs in the monad [M]: it reads and updates a [world] (the
    persister's [db] handle, the wall clock, and the chronological trace of
    logger and store calls) and either returns or raises.  The world survives a
    raise, as the log entries written before an exception do.  A handler reads
    the clock at most once per event, so the clock stands still during a call.

    [enable_collection_sharding] and [main] are not modelled: no handler calls
    the first, and the second only wires the handlers to the message bus. *)

From Stdlib Require Import ZArith List String Ascii Bool Lia.
Import ListNotations.

Set Implicit Arguments.
Set Warnings "-register-all".
Local Open Scope string_scope.
Local Open Scope Z_scope.

(** ** Exceptions *)

(** The exception classes the module can meet.  [JSONDecodeError] and
    dateutil's [ParserError] derive from [ValueError]; every class derives from
    [Exception]. *)
Inductive exn_class : Type :=
| Exception
| TypeError
| ValueError
| KeyError
| AttributeError
| OverflowError
| OSError
| JSONDecodeError
| ParserError
| PyMongoError.

Definition exn_class_eqb (c d : exn_class) : bool :=
  match c, d with
  | Exception, Exception | TypeError, TypeError | ValueError, ValueError
  | KeyError, KeyError | AttributeError, AttributeError
  | OverflowError, OverflowError | OSError, OSError
  | JSONDecodeError, JSONDecodeError | ParserError, ParserError
  | PyMongoError, PyMongoError => true
  | _, _ => false
  end.

(** [isinstance c d]: an exception of class [c] is caught by [except d]. *)
Definition isinstance (c d : exn_class) : bool :=
  match d with
  | Exception => true
  | ValueError =>
      match c with
      | ValueError | JSONDecodeError | ParserError => true
      | _ => false
      end
  | _ => exn_class_eqb c d
  end.

(** An exception: its class and [str(error)]. *)
Record exn : Type := mk_exn { exn_cls : exn_class; exn_msg : string }.

Inductive outcome (A : Type) : Type :=
| Ret (a : A)
| Raise (e : exn).
Arguments Ret {A} a.
Arguments Raise {A} e.

(** ** Values, documents, store calls *)

(** What [json.loads] produces, over the runtime's floats. *)
Inductive value (float : Type) : Type :=
| VNone
| VBool (b : bool)
| VInt (z : Z)
| VFloat (f : float)
| VStr (s : string)
| VList (l : list (value float))
| VDict (d : list (string * value float)).
Arguments VNone {float}.
Arguments VBool {float} b.
Arguments VInt {float} z.
Arguments VFloat {float} f.
Arguments VStr {float} s.
Arguments VList {float} l.
Arguments VDict {float} d.

(** The two shapes of document the persister writes (Python dict literals
    with fixed keys). *)
Inductive doc (V D : Type) : Type :=
| AttrDoc (attr : string) (val : V) (device_id : V) (ts : D)
| StatusDoc (status : V) (device_id : V) (ts : D).
Arguments AttrDoc {V D} attr val device_id ts.
Arguments StatusDoc {V D} status device_id ts.

Definition doc_ts {V D : Type} (d : doc V D) : D :=
  match d with
  | AttrDoc _ _ _ ts => ts
  | StatusDoc _ _ ts => ts
  end.

Definition is_attr_doc {V D : Type} (d : doc V D) : bool :=
  match d with
  | AttrDoc _ _ _ _ => true
  | StatusDoc _ _ _ => false
  end.

Definition is_status_doc {V D : Type} (d : doc V D) : bool :=
  negb (is_attr_doc d).

Inductive direction : Type := ASCENDING | DESCENDING | HASHED.

(** The arguments of [Collection.create_index]. *)
Record index_spec : Type := mk_index
  { ix_keys : list (string * direction);
    ix_expireAfterSeconds : option Z }.

Inductive level : Type := DEBUG | INFO | WARN | ERROR.

(** One observable call: a logger call, or a call on a collection of
    [self.db]. *)
Inductive event (D : Type) : Type :=
| Log (lvl : level) (msg : string)
| CreateIndex (coll : string) (ix : index_spec)
| InsertMany (coll : string) (docs : list D).
Arguments Log {D} lvl msg.
Arguments CreateIndex {D} coll ix.
Arguments InsertMany {D} coll docs.

(** ** The runtime interface *)

Class Runtime : Type :=
  { (* carriers *)
    float : Type;
    datetime : Type;
    store : Type;
    clock : Type;
    (* builtins: int(str), float(str), float(int), int(float), float > int,
       int / int, float / int, repr *)
    int_of_str : string -> option Z;
    float_of_str : string -> option float;
    float_of_int : Z -> option float;
    int_of_float : float -> outcome Z;
    float_gt_int : float -> Z -> bool;
    int_truediv : Z -> Z -> option float;
    float_div_int : float -> Z -> float;
    repr : value float -> string;
    (* datetime.utcfromtimestamp, dateutil.parser.parse *)
    utcfromtimestamp : float -> outcome datetime;
    dateutil_parse : value float -> outcome datetime;
    (* int(time.time() * 1000), datetime.utcnow() *)
    time_ms : clock -> Z;
    utcnow : clock -> datetime;
    (* json.loads, json.dumps *)
    json_loads : string -> outcome (value float);
    json_dumps : value float -> string;
    (* pymongo.MongoClient(conf.db_host, ...)['device_history'], and the two
       collection methods *)
    MongoClient : outcome store;
    create_index : store -> string -> index_spec -> outcome unit * store;
    insert_many :
      store -> string -> list (doc (value float) datetime) ->
      outcome unit * store;
    (* history.conf *)
    db_expiration : Z }.

Abbreviation pyval := (value float).
Abbreviation pydoc := (doc (value float) datetime).
Abbreviation pyevent := (event (doc (value float) datetime)).

(** ** Python's object protocol on decoded values *)

Definition nl : string := String (ascii_of_nat 10) EmptyString.

Definition type_name {F : Type} (v : value F) : string :=
  match v with
  | VNone => "NoneType"
  | VBool _ => "bool"
  | VInt _ => "int"
  | VFloat _ => "float"
  | VStr _ => "str"
  | VList _ => "list"
  | VDict _ => "dict"
  end.

(** [v is None] *)
Definition is_None {F : Type} (v : value F) : bool :=
  match v with
  | VNone => true
  | _ => false
  end.

(** [v != s] for a string literal [s]. *)
Definition ne_str {F : Type} (v : value F) (s : string) : bool :=
  match v with
  | VStr t => negb (String.eqb t s)
  | _ => true
  end.

Fixpoint dict_lookup {V : Type} (k : string) (d : list (string * V)) : option V :=
  match d with
  | [] => None
  | (k', v) :: d' => if String.eqb k' k then Some v else dict_lookup k d'
  end.

(** [d.get(k, default)] on a dictionary. *)
Definition dict_get {V : Type} (k : string) (d : list (string * V)) (default : V) : V :=
  match dict_lookup k d with
  | Some x => x
  | None => default
  end.

Definition dict_keys {V : Type} (d : list (string * V)) : list string :=
  map fst d.

Definition b2z (b : bool) : Z := if b then 1 else 0.

Section Persister.
Context {RT : Runtime}.

(** [str(v)], as [format] and [%s] use it. *)
Definition py_str (v : pyval) : string :=
  match v with
  | VStr s => s
  | _ => repr v
  end.

Definition no_attribute (v : pyval) (name : string) : exn :=
  mk_exn AttributeError
    ("'" ++ type_name v ++ "' object has no attribute '" ++ name ++ "'").

(** [v.get(k, default)] *)
Definition py_get (v : pyval) (k : string) (default : pyval) : outcome pyval :=
  match v with
  | VDict d => Ret (dict_get k d default)
  | _ => Raise (no_attribute v "get")
  end.

(** [v.keys()] *)
Definition py_keys (v : pyval) : outcome (list string) :=
  match v with
  | VDict d => Ret (dict_keys d)
  | _ => Raise (no_attribute v "keys")
  end.

(** [v[k]] for a string key [k]. *)
Definition py_getitem (v : pyval) (k : string) : outcome pyval :=
  match v with
  | VDict d =>
      match dict_lookup k d with
      | Some x => Ret x
      | None => Raise (mk_exn KeyError ("'" ++ k ++ "'"))
      end
  | VStr _ => Raise (mk_exn TypeError "string indices must be integers")
  | VList _ =>
      Raise (mk_exn TypeError "list indices must be integers or slices, not str")
  | _ =>
      Raise (mk_exn TypeError ("'" ++ type_name v ++ "' object is not subscriptable"))
  end.

Definition invalid_int_literal (v : pyval) : exn :=
  mk_exn ValueError ("invalid literal for int() with base 10: " ++ repr v).

Definition invalid_float_literal (v : pyval) : exn :=
  mk_exn ValueError ("could not convert string to float: " ++ repr v).

Definition unorderable (v : pyval) : exn :=
  mk_exn TypeError
    ("'>' not supported between instances of '" ++ type_name v ++ "' and 'int'").

(** [int(v)] *)
Definition py_int (v : pyval) : outcome Z :=
  match v with
  | VBool b => Ret (b2z b)
  | VInt z => Ret z
  | VFloat f => int_of_float f
  | VStr s =>
      match int_of_str s with
      | Some z => Ret z
      | None => Raise (invalid_int_literal v)
      end
  | _ =>
      Raise (mk_exn TypeError
               ("int() argument must be a string, a bytes-like object or a number, not '"
                  ++ type_name v ++ "'"))
  end.

Definition int_to_float (z : Z) : outcome float :=
  match float_of_int z with
  | Some f => Ret f
  | None => Raise (mk_exn OverflowError "int too large to convert to float")
  end.

(** [float(v)] *)
Definition py_float (v : pyval) : outcome float :=
  match v with
  | VBool b => int_to_float (b2z b)
  | VInt z => int_to_float z
  | VFloat f => Ret f
  | VStr s =>
      match float_of_str s with
      | Some f => Ret f
      | None => Raise (invalid_float_literal v)
      end
  | _ =>
      Raise (mk_exn TypeError
               ("float() argument must be a string or a number, not '"
                  ++ type_name v ++ "'"))
  end.

(** [v > n] for an integer [n]. *)
Definition py_gt_int (v : pyval) (n : Z) : outcome bool :=
  match v with
  | VBool b => Ret (b2z b >? n)
  | VInt z => Ret (z >? n)
  | VFloat f => Ret (float_gt_int f n)
  | _ => Raise (unorderable v)
  end.

(** [a / b] on integers. *)
Definition py_truediv (a b : Z) : outcome float :=
  match int_truediv a b with
  | Some f => Ret f
  | None =>
      Raise (mk_exn OverflowError "integer division result too large for a float")
  end.

(** ** The monad of a method call *)

Record world : Type := mk_world
  { db : option store;          (* self.db *)
    clk : clock;                (* the wall clock *)
    trace : list pyevent }.     (* logger and store calls, oldest first *)

Definition M (A : Type) : Type := world -> outcome A * world.

Definition ret {A : Type} (a : A) : M A := fun w => (Ret a, w).

Definition raise {A : Type} (e : exn) : M A := fun w => (Raise e, w).

Definition bind {A B : Type} (m : M A) (k : A -> M B) : M B :=
  fun w =>
    match m w with
    | (Ret a, w') => k a w'
    | (Raise e, w') => (Raise e, w')
    end.

(** A pure library call. *)
Definition lift {A : Type} (o : outcome A) : M A := fun w => (o, w).

(** [try: m except cls as error: handler error] *)
Definition try_except {A : Type} (m : M A) (cls : exn_class) (handler : exn -> M A)
  : M A :=
  fun w =>
    match m w with
    | (Ret a, w') => (Ret a, w')
    | (Raise e, w') =>
        if isinstance (exn_cls e) cls then handler e w' else (Raise e, w')
    end.

Definition emit (ev : pyevent) (w : world) : world :=
  mk_world (db w) (clk w) (trace w ++ [ev]).

(** [self.LOGGER.<lvl>(msg)] *)
Definition log (lvl : level) (msg : string) : M unit :=
  fun w => (Ret tt, emit (Log lvl msg) w).

Definition read_clock {A : Type} (f : clock -> A) : M A :=
  fun w => (Ret (f (clk w)), w).

Definition set_db (st : store) : M unit :=
  fun w => (Ret tt, mk_world (Some st) (clk w) (trace w)).

Definition not_subscriptable : exn :=
  mk_exn TypeError "'NoneType' object is not subscriptable".

(** [self.db[coll].create_index(...)] *)
Definition db_create_index (coll : string) (ix : index_spec) : M unit :=
  fun w =>
    match db w with
    | None => (Raise not_subscriptable, w)
    | Some st =>
        let (r, st') := create_index st coll ix in
        (r, mk_world (Some st') (clk w) (trace w ++ [CreateIndex coll ix]))
    end.

(** [self.db[coll].insert_many(docs)] *)
Definition db_insert_many (coll : string) (docs : list pydoc) : M unit :=
  fun w =>
    match db w with
    | None => (Raise not_subscriptable, w)
    | Some st =>
        let (r, st') := insert_many st coll docs in
        (r, mk_world (Some st') (clk w) (trace w ++ [InsertMany coll docs]))
    end.

(** A [for] loop that collects one result per element. *)
Fixpoint for_each {A B : Type} (l : list A) (body : A -> M B) : M (list B) :=
  match l with
  | [] => ret []
  | a :: l' =>
      bind (body a) (fun b => bind (for_each l' body) (fun bs => ret (b :: bs)))
  end.

End Persister.

Notation "x <- m ;; k" := (bind m (fun x => k))
  (at level 61, m at next level, right associativity).
Notation "m ;;; k" := (bind m (fun _ => k))
  (at level 61, right associativity).

(** ** The methods of [Persister] *)

Section Methods.
Context {RT : Runtime}.

Definition ts_descending : index_spec := mk_index [("ts", DESCENDING)] None.

Definition ts_expire : index_spec :=
  mk_index [("ts", ASCENDING)] (Some db_expiration).

(** [create_indexes(self, collection_name)] *)
Definition create_indexes (collection_name : string) : M unit :=
  db_create_index collection_name ts_descending ;;;
  db_create_index collection_name ts_expire.

(** [init_mongodb(self, collection_name=None)] *)
Definition init_mongodb (collection_name : option string) : M unit :=
  try_except
    (st <- lift MongoClient ;;
     set_db st ;;;
     match collection_name with
     | Some (String c s) => create_indexes (String c s)
     | _ => ret tt
     end ;;;
     log INFO "db initialized")
    Exception
    (fun error => log WARN ("Could not init mongo db client: " ++ exn_msg error)).

(** The envelope [parse_message] builds before serialising it. *)
Definition parsed_message (attrs : pyval) (now : Z) (id service : pyval) : pyval :=
  VDict [("attrs", attrs);
         ("metadata", VDict [("timestamp", VInt now);
                             ("deviceid", id);
                             ("tenant", service)])].

(** [parse_message(self, data)] *)
Definition parse_message (data : pyval) : M string :=
  d <- lift (py_getitem data "data") ;;
  attrs <- lift (py_getitem d "attrs") ;;
  now <- read_clock time_ms ;;
  d' <- lift (py_getitem data "data") ;;
  id <- lift (py_getitem d' "id") ;;
  meta <- lift (py_getitem data "meta") ;;
  service <- lift (py_getitem meta "service") ;;
  let parsed := parsed_message attrs now id service in
  log INFO ("new message is: " ++ py_str parsed) ;;;
  ret (json_dumps parsed).

Definition failed_to_parse (timestamp : pyval) (error : exn) : string :=
  "Failed to parse timestamp (" ++ py_str timestamp ++ ")" ++ nl ++ exn_msg error.

Definition could_not_be_parsed (timestamp : pyval) (error : exn) : exn :=
  mk_exn TypeError
    ("Timestamp could not be parsed: " ++ py_str timestamp ++ nl ++ exn_msg error).

(** [(2**31)-1], the largest count read as seconds. *)
Definition max_seconds : Z := 2 ^ 31 - 1.

(** The first [try] block of [parse_datetime]: seconds, or milliseconds above
    [2**31 - 1]. *)
Definition as_integer_count (timestamp : pyval) : M datetime :=
  val <- lift (py_int timestamp) ;;
  big <- lift (py_gt_int timestamp max_seconds) ;;
  if big then
    q <- lift (py_truediv val 1000) ;;
    lift (utcfromtimestamp q)
  else
    f <- lift (py_float timestamp) ;;
    lift (utcfromtimestamp f).

(** The second [try] block: the raw value as milliseconds. *)
Definition as_float_millis (timestamp : pyval) : M datetime :=
  f <- lift (py_float timestamp) ;;
  lift (utcfromtimestamp (float_div_int f 1000)).

(** [try: return m except ValueError as error: LOGGER.error(...)], falling
    through to the next statement with [None]. *)
Definition attempt (timestamp : pyval) (m : M datetime) : M (option datetime) :=
  try_except
    (dt <- m ;; ret (Some dt))
    ValueError
    (fun error => log ERROR (failed_to_parse timestamp error) ;;; ret None).

(** [parse_datetime(self, timestamp)] *)
Definition parse_datetime (timestamp : pyval) : M datetime :=
  if is_None timestamp then read_clock utcnow
  else
    r1 <- attempt timestamp (as_integer_count timestamp) ;;
    match r1 with
    | Some dt => ret dt
    | None =>
        r2 <- attempt timestamp (as_float_millis timestamp) ;;
        match r2 with
        | Some dt => ret dt
        | None =>
            try_except
              (lift (dateutil_parse timestamp))
              TypeError
              (fun error => raise (could_not_be_parsed timestamp error))
        end
    end.

Definition collection_name_of (tenant : string) (device_id : pyval) : string :=
  tenant ++ "_" ++ py_str device_id.

(** Lines 106-112 of [handle_event_data]: decode, or log and give up. *)
Definition decode_event (message : string) : M (option pyval) :=
  try_except
    (data <- lift (json_loads message) ;;
     log INFO ("THIS IS THE DATA: " ++ py_str data) ;;;
     ret (Some data))
    Exception
    (fun error =>
       log ERROR ("Received event is not valid JSON. Ignoring" ++ nl ++ exn_msg error) ;;;
       ret None).

(** Lines 139-146: write the batch, or report the empty event. *)
Definition persist (tenant : string) (device_id : pyval) (docs : list pydoc) : M unit :=
  match docs with
  | _ :: _ =>
      try_except
        (db_insert_many (collection_name_of tenant device_id) docs)
        Exception
        (fun error =>
           log WARN ("Failed to persist received information." ++ nl ++ exn_msg error))
  | [] =>
      log INFO ("Got empty event from device [" ++ py_str device_id ++ "] - ignoring")
  end.

(** Lines 113-138, on the decoded event: check the envelope, normalise the
    timestamp, build the batch; then [persist]. *)
Definition handle_decoded (tenant message : string) (data : pyval) : M unit :=
  log DEBUG ("got data event " ++ message) ;;;
  metadata <- lift (py_get data "metadata" VNone) ;;
  if is_None metadata then
    log ERROR "Received event has no metadata associated with it. Ignoring"
  else
    device_id <- lift (py_get metadata "deviceid" VNone) ;;
    if is_None device_id then
      log ERROR "Received event cannot be traced to a valid device. Ignoring"
    else
      raw <- lift (py_get metadata "timestamp" VNone) ;;
      timestamp <- parse_datetime raw ;;
      attrs <- lift (py_get data "attrs" (VDict [])) ;;
      keys <- lift (py_keys attrs) ;;
      docs <- for_each keys
                (fun attr =>
                   a <- lift (py_getitem data "attrs") ;;
                   v <- lift (py_getitem a attr) ;;
                   ret (AttrDoc attr v device_id timestamp)) ;;
      device_status <- lift (py_get metadata "status" VNone) ;;
      let docs :=
        if is_None device_status then docs
        else (docs ++ [StatusDoc device_status device_id timestamp])%list in
      persist tenant device_id docs.

(** [handle_event_data(self, tenant, message)] *)
Definition handle_event_data (tenant message : string) : M unit :=
  decoded <- decode_event message ;;
  match decoded with
  | None => ret tt
  | Some data => handle_decoded tenant message data
  end.

(** [handle_event_devices(self, tenant, message)] *)
Definition handle_event_devices (tenant message : string) : M unit :=
  data <- lift (json_loads message) ;;
  log INFO ("got device event " ++ py_str data) ;;;
  ev <- lift (py_getitem data "event") ;;
  if ne_str ev "configure" then
    meta <- lift (py_getitem data "meta") ;;
    service <- lift (py_getitem meta "service") ;;
    d <- lift (py_getitem data "data") ;;
    id <- lift (py_getitem d "id") ;;
    create_indexes (py_str service ++ "_" ++ py_str id)
  else
    new_message <- parse_message data ;;
    handle_event_data tenant new_message.

End Methods.

(** ** Observing a run *)

Section Observations.
Context {RT : Runtime}.

Definition is_log (ev : pyevent) : bool :=
  match ev with
  | Log _ _ => true
  | _ => false
  end.

(** The calls on the store, in order, with the logger calls dropped. *)
Definition db_calls (t : list pyevent) : list pyevent :=
  filter (fun ev => negb (is_log ev)) t.

(** What the loop of [handle_event_data] collects from the dictionary
    [attrs]: one attribute document per key, in key order. *)
Definition attribute_documents (attrs : list (string * pyval)) (device_id : pyval)
  (ts : datetime) : list pydoc :=
  map (fun attr => AttrDoc attr (dict_get attr attrs VNone) device_id ts)
    (dict_keys attrs).

(** What the status branch adds: one status document unless the status is
    [None]. *)
Definition status_documents (status device_id : pyval) (ts : datetime) : list pydoc :=
  if is_None status then [] else [StatusDoc status device_id ts].

(** The store calls a batch causes: one [insert_many], or none when the batch
    is empty. *)
Definition batch_calls (coll : string) (docs : list pydoc) : list pyevent :=
  match docs with
  | [] => []
  | _ :: _ => [InsertMany coll docs]
  end.

(** [w'] is [w] after some logger calls and nothing else. *)
Definition log_only (w w' : world) : Prop :=
  db w' = db w /\ clk w' = clk w /\
  exists logs, trace w' = (trace w ++ logs)%list /\ db_calls logs = [].

(** [w'] is [w] after some logger calls and some [insert_many] calls on the
    collection [coll], and nothing else. *)
Definition writes_into (coll : string) (w w' : world) : Prop :=
  clk w' = clk w /\
  exists evs, trace w' = (trace w ++ evs)%list /\
    Forall (fun ev => match ev with
                      | Log _ _ => True
                      | InsertMany c _ => c = coll
                      | CreateIndex _ _ => False
                      end) evs.

(** Every run of [m] moves the world along [R]. *)
Definition steps {A : Type} (R : world -> world -> Prop) (m : M A) : Prop :=
  forall w, R w (snd (m w)).

(** A computation that only logs. *)
Definition quiet {A : Type} (m : M A) : Prop := steps log_only m.

(** Two worlds that agree on everything but the logger calls made so far. *)
Definition sim (w1 w2 : world) : Prop :=
  db w1 = db w2 /\ clk w1 = clk w2 /\ db_calls (trace w1) = db_calls (trace w2).

(** Two computations that, from such worlds, end alike and in such worlds. *)
Definition related {A : Type} (m1 m2 : M A) : Prop :=
  forall w1 w2, sim w1 w2 ->
    fst (m1 w1) = fst (m2 w2) /\ sim (snd (m1 w1)) (snd (m2 w2)).

End Observations.

(** ** A reference runtime

    An executable instance of [Runtime], used to run the handlers on concrete
    events: decimal fractions for floats, microseconds since the epoch for
    instants and for the clock, a JSON reader and writer for the subset of
    JSON without exponents and unicode escapes, an ISO date reader, and a
    store that records indexes and documents and fails when it is offline. *)

Module Reference.

(** [mant * 10^(-scale)] *)
Record dec : Type := mk_dec { mant : Z; scale : nat }.

Definition pow10 (n : nat) : Z := 10 ^ Z.of_nat n.

(** Nearest integer to [num / den], ties to even ([den > 0]). *)
Definition round_div (num den : Z) : Z :=
  let q := num / den in
  let r := num mod den in
  if (2 * r >? den) || ((2 * r =? den) && Z.odd q) then q + 1 else q.

Definition dq : ascii := ascii_of_nat 34.
Definition backslash : ascii := ascii_of_nat 92.
Definition newline : ascii := ascii_of_nat 10.

Definition digit_of (c : ascii) : option Z :=
  let n := Z.of_nat (nat_of_ascii c) in
  if (48 <=? n) && (n <=? 57) then Some (n - 48) else None.

(** The longest run of digits at the head of [cs]: its value from [acc], how
    many digits were read, and the rest. *)
Fixpoint read_digits (cs : list ascii) (acc : Z) (n : nat) : Z * nat * list ascii :=
  match cs with
  | c :: cs' =>
      match digit_of c with
      | Some d => read_digits cs' (10 * acc + d) (S n)
      | None => (acc, n, cs)
      end
  | [] => (acc, n, [])
  end.

(** An optional sign, digits, and an optional fraction. *)
Definition read_number (cs : list ascii) : option (value dec * list ascii) :=
  let '(neg, cs1) :=
    match cs with
    | c :: r => if Ascii.eqb c "-" then (true, r) else (false, cs)
    | [] => (false, cs)
    end in
  let sign := if neg : bool then (-1) else 1 in
  match read_digits cs1 0 0 with
  | (_, O, _) => None
  | (i, _, c :: cs2) =>
      if Ascii.eqb c "." then
        match read_digits cs2 i 0 with
        | (_, O, _) => None
        | (m, k, cs3) => Some (VFloat (mk_dec (sign * m) k), cs3)
        end
      else Some (VInt (sign * i), c :: cs2)
  | (i, _, []) => Some (VInt (sign * i), [])
  end.

Definition drop_plus (cs : list ascii) : list ascii :=
  match cs with
  | c :: r => if Ascii.eqb c "+" then r else cs
  | [] => cs
  end.

Definition int_of_str (s : string) : option Z :=
  match read_number (drop_plus (list_ascii_of_string s)) with
  | Some (VInt z, []) => Some z
  | _ => None
  end.

Definition float_of_str (s : string) : option dec :=
  match read_number (drop_plus (list_ascii_of_string s)) with
  | Some (VInt z, []) => Some (mk_dec z 0)
  | Some (VFloat f, []) => Some f
  | _ => None
  end.

Fixpoint digits_of (fuel : nat) (n : Z) (acc : string) : string :=
  match fuel with
  | O => acc
  | S fuel' =>
      let acc' := String (ascii_of_nat (48 + Z.to_nat (n mod 10))) acc in
      if n <? 10 then acc' else digits_of fuel' (n / 10) acc'
  end.

Definition show_nat (n : Z) : string :=
  digits_of (S (Z.to_nat (Z.log2 n))) n "".

Definition show_Z (z : Z) : string :=
  if z <? 0 then "-" ++ show_nat (- z) else show_nat z.

Fixpoint zeros (n : nat) : string :=
  match n with
  | O => ""
  | S n' => String "0" (zeros n')
  end.

Definition show_dec (f : dec) : string :=
  let ds := show_nat (Z.abs (mant f)) in
  let ds := zeros (S (scale f) - String.length ds) ++ ds in
  let cut := (String.length ds - scale f)%nat in
  let frac := match scale f with O => "0" | _ => substring cut (scale f) ds end in
  (if mant f <? 0 then "-" else "") ++ substring 0 cut ds ++ "." ++ frac.

Fixpoint escape (s : string) : string :=
  match s with
  | EmptyString => ""
  | String c s' =>
      if Ascii.eqb c dq || Ascii.eqb c backslash then
        String backslash (String c (escape s'))
      else if Ascii.eqb c newline then String backslash (String "n" (escape s'))
      else String c (escape s')
  end.

Definition quote (json : bool) (s : string) : string :=
  if json then String dq (escape s ++ String dq "") else "'" ++ s ++ "'".

(** [json.dumps] when [json], [repr] otherwise. *)
Fixpoint show (json : bool) (v : value dec) : string :=
  match v with
  | VNone => if json then "null" else "None"
  | VBool true => if json then "true" else "True"
  | VBool false => if json then "false" else "False"
  | VInt z => show_Z z
  | VFloat f => show_dec f
  | VStr s => quote json s
  | VList l =>
      "[" ++
      (fix items (l : list (value dec)) : string :=
         match l with
         | [] => ""
         | x :: l' =>
             show json x ++ match l' with [] => "" | _ :: _ => ", " ++ items l' end
         end) l ++ "]"
  | VDict d =>
      "{" ++
      (fix members (d : list (string * value dec)) : string :=
         match d with
         | [] => ""
         | (k, x) :: d' =>
             quote json k ++ ": " ++ show json x
               ++ match d' with [] => "" | _ :: _ => ", " ++ members d' end
         end) d ++ "}"
  end.

Definition is_ws (c : ascii) : bool :=
  Ascii.eqb c " " || Ascii.eqb c newline || Ascii.eqb c (ascii_of_nat 9)
  || Ascii.eqb c (ascii_of_nat 13).

Fixpoint skip_ws (cs : list ascii) : list ascii :=
  match cs with
  | c :: cs' => if is_ws c then skip_ws cs' else cs
  | [] => []
  end.

Fixpoint strip_prefix (p : string) (cs : list ascii) : option (list ascii) :=
  match p, cs with
  | EmptyString, _ => Some cs
  | String a p', c :: cs' => if Ascii.eqb a c then strip_prefix p' cs' else None
  | String _ _, [] => None
  end.

(** The characters up to the closing quote, with [acc] the ones read so far,
    newest first. *)
Fixpoint read_string (cs : list ascii) (acc : list ascii) : option (string * list ascii) :=
  match cs with
  | [] => None
  | c :: cs' =>
      if Ascii.eqb c dq then Some (string_of_list_ascii (rev acc), cs')
      else if Ascii.eqb c backslash then
        match cs' with
        | e :: cs'' =>
            read_string cs'' ((if Ascii.eqb e "n" then newline else e) :: acc)
        | [] => None
        end
      else read_string cs' (c :: acc)
  end.

(** [d[k] = v] on an insertion-ordered dictionary. *)
Fixpoint dict_set {V : Type} (k : string) (v : V) (d : list (string * V))
  : list (string * V) :=
  match d with
  | [] => [(k, v)]
  | (k', v') :: d' =>
      if String.eqb k' k then (k', v) :: d' else (k', v') :: dict_set k v d'
  end.

Fixpoint parse_value (fuel : nat) (cs : list ascii) {struct fuel}
  : option (value dec * list ascii) :=
  match fuel with
  | O => None
  | S n =>
      match skip_ws cs with
      | [] => None
      | c :: r =>
          if Ascii.eqb c dq then
            match read_string r [] with
            | Some (s, r') => Some (VStr s, r')
            | None => None
            end
          else if Ascii.eqb c "[" then
            match skip_ws r with
            | c' :: r' =>
                if Ascii.eqb c' "]" then Some (VList [], r')
                else parse_elements n (c' :: r') []
            | [] => None
            end
          else if Ascii.eqb c "{" then
            match skip_ws r with
            | c' :: r' =>
                if Ascii.eqb c' "}" then Some (VDict [], r')
                else parse_members n (c' :: r') []
            | [] => None
            end
          else
            match strip_prefix "null" (c :: r) with
            | Some r' => Some (VNone, r')
            | None =>
                match strip_prefix "true" (c :: r) with
                | Some r' => Some (VBool true, r')
                | None =>
                    match strip_prefix "false" (c :: r) with
                    | Some r' => Some (VBool false, r')
                    | None => read_number (c :: r)
                    end
                end
            end
      end
  end
with parse_elements (fuel : nat) (cs : list ascii) (acc : list (value dec)) {struct fuel}
  : option (value dec * list ascii) :=
  match fuel with
  | O => None
  | S n =>
      match parse_value n cs with
      | Some (v, r) =>
          match skip_ws r with
          | c :: r' =>
              if Ascii.eqb c "," then parse_elements n r' (acc ++ [v])
              else if Ascii.eqb c "]" then Some (VList (acc ++ [v]), r')
              else None
          | [] => None
          end
      | None => None
      end
  end
with parse_members (fuel : nat) (cs : list ascii) (acc : list (string * value dec))
  {struct fuel} : option (value dec * list ascii) :=
  match fuel with
  | O => None
  | S n =>
      match skip_ws cs with
      | c :: r =>
          if Ascii.eqb c dq then
            match read_string r [] with
            | Some (k, r1) =>
                match skip_ws r1 with
                | c1 :: r2 =>
                    if Ascii.eqb c1 ":" then
                      match parse_value n r2 with
                      | Some (v, r3) =>
                          match skip_ws r3 with
                          | c3 :: r4 =>
                              if Ascii.eqb c3 "," then
                                parse_members n r4 (dict_set k v acc)
                              else if Ascii.eqb c3 "}" then
                                Some (VDict (dict_set k v acc), r4)
                              else None
                          | [] => None
                          end
                      | None => None
                      end
                    else None
                | [] => None
                end
            | None => None
            end
          else None
      | [] => None
      end
  end.

Definition json_loads (s : string) : outcome (value dec) :=
  let cs := list_ascii_of_string s in
  match parse_value (2 * List.length cs + 2) cs with
  | Some (v, r) =>
      match skip_ws r with
      | [] => Ret v
      | _ :: _ => Raise (mk_exn JSONDecodeError "Extra data")
      end
  | None => Raise (mk_exn JSONDecodeError "Expecting value")
  end.

(** Single quotes to double quotes: JSON texts are written with single
    quotes below. *)
Fixpoint js (s : string) : string :=
  match s with
  | EmptyString => ""
  | String c s' => String (if Ascii.eqb c "'" then dq else c) (js s')
  end.

(** Instants: microseconds since the epoch, within years 1 to 9999. *)
Definition min_us : Z := -62135596800 * 1000000.
Definition max_us : Z := 253402300800 * 1000000 - 1.

Definition utcfromtimestamp (f : dec) : outcome Z :=
  let us := round_div (mant f * 1000000) (pow10 (scale f)) in
  if (min_us <=? us) && (us <=? max_us) then Ret us
  else Raise (mk_exn ValueError "year is out of range").

(** Days from 1970-01-01 to the civil date [y-m-d]. *)
Definition days_from_civil (y m d : Z) : Z :=
  let y' := if m <=? 2 then y - 1 else y in
  let era := y' / 400 in
  let yoe := y' - era * 400 in
  let doy := (153 * (if m >? 2 then m - 3 else m + 9) + 2) / 5 + d - 1 in
  let doe := yoe * 365 + yoe / 4 - yoe / 100 + doy in
  era * 146097 + doe - 719468.

(** [YYYY-MM-DD] *)
Definition read_date (cs : list ascii) : option Z :=
  match read_digits cs 0 0 with
  | (y, 4%nat, c1 :: cs1) =>
      match read_digits cs1 0 0 with
      | (m, 2%nat, c2 :: cs2) =>
          match read_digits cs2 0 0 with
          | (d, 2%nat, []) =>
              if Ascii.eqb c1 "-" && Ascii.eqb c2 "-" && (1 <=? y)
                 && (1 <=? m) && (m <=? 12) && (1 <=? d) && (d <=? 31)
              then Some (days_from_civil y m d * 86400 * 1000000)
              else None
          | _ => None
          end
      | _ => None
      end
  | _ => None
  end.

Definition dateutil_parse (v : value dec) : outcome Z :=
  match v with
  | VStr s =>
      match read_date (list_ascii_of_string s) with
      | Some us => Ret us
      | None => Raise (mk_exn ParserError ("Unknown string format: " ++ s))
      end
  | _ =>
      Raise (mk_exn TypeError
               ("Parser must be a string or character stream, not " ++ type_name v))
  end.

Definition direction_eqb (a b : direction) : bool :=
  match a, b with
  | ASCENDING, ASCENDING | DESCENDING, DESCENDING | HASHED, HASHED => true
  | _, _ => false
  end.

Fixpoint keys_eqb (a b : list (string * direction)) : bool :=
  match a, b with
  | [], [] => true
  | (f, x) :: a', (g, y) :: b' => String.eqb f g && direction_eqb x y && keys_eqb a' b'
  | _, _ => false
  end.

Definition index_eqb (a b : index_spec) : bool :=
  keys_eqb (ix_keys a) (ix_keys b)
  && match ix_expireAfterSeconds a, ix_expireAfterSeconds b with
     | None, None => true
     | Some x, Some y => x =? y
     | _, _ => false
     end.

(** The store: whether it can be reached, and per collection its indexes and
    documents. *)
Record mongo : Type := mk_mongo
  { online : bool;
    indexes : list (string * index_spec);
    documents : list (string * doc (value dec) Z) }.

Definition unreachable : exn :=
  mk_exn PyMongoError "No servers found yet".

Definition has_index (coll : string) (ix : index_spec) (st : mongo) : bool :=
  existsb (fun e => String.eqb (fst e) coll && index_eqb (snd e) ix) (indexes st).

Definition create_index (st : mongo) (coll : string) (ix : index_spec)
  : outcome unit * mongo :=
  if online st then
    (Ret tt,
     if has_index coll ix st then st
     else mk_mongo true (indexes st ++ [(coll, ix)]) (documents st))
  else (Raise unreachable, st).

Definition insert_many (st : mongo) (coll : string) (docs : list (doc (value dec) Z))
  : outcome unit * mongo :=
  if online st then
    (Ret tt,
     mk_mongo true (indexes st) (documents st ++ map (fun d => (coll, d)) docs))
  else (Raise unreachable, st).

Definition float_of_int (z : Z) : option dec := Some (mk_dec z 0).

Definition int_of_float (f : dec) : outcome Z :=
  Ret (Z.quot (mant f) (pow10 (scale f))).

Definition float_gt_int (f : dec) (n : Z) : bool :=
  mant f >? n * pow10 (scale f).

(** Six decimals of [a / b]; exact when [b] is 1000. *)
Definition int_truediv (a b : Z) : option dec :=
  if b =? 0 then None else Some (mk_dec (round_div (a * 1000000) b) 6).

Definition float_div_int (f : dec) (n : Z) : dec :=
  mk_dec (round_div (mant f * 1000000) n) (scale f + 6).

Definition time_ms (now : Z) : Z := now / 1000.

Definition utcnow (now : Z) : Z := now.

Definition empty_store : mongo := mk_mongo true [] [].

Definition offline_store : mongo := mk_mongo false [] [].

(** One week, in seconds. *)
Definition db_expiration : Z := 604800.

(** The runtime whose [MongoClient] answers [client]. *)
Definition runtime_with (client : outcome mongo) : Runtime :=
  Build_Runtime
    int_of_str float_of_str float_of_int int_of_float float_gt_int int_truediv
    float_div_int (show false)
    utcfromtimestamp dateutil_parse
    time_ms utcnow
    json_loads (show true)
    client create_index insert_many
    db_expiration.

Definition runtime : Runtime := runtime_with (Ret empty_store).

(** The same with a client that connects to nothing. *)
Definition degraded : Runtime := runtime_with (Ret offline_store).

(** *** Events and worlds to run the handlers on *)

(** 2026-09-21T13:33:20.123456Z, the store reachable and empty, nothing
    logged yet. *)
Definition now_us : Z := 1790000000123456.

Definition w0 : world (RT := runtime) := mk_world (RT := runtime) (Some empty_store) now_us [].

(** The same instant with the store unreachable. *)
Definition w_offline : world (RT := runtime) :=
  mk_world (RT := runtime) (Some offline_store) now_us [].

Definition create_event : string :=
  js "{'event': 'create', 'meta': {'service': 'tenantA'}, 'data': {'id': 'dev1'}}".

Definition configure_event : string :=
  js "{'event': 'configure', 'meta': {'service': 'tenantA'}, 'data': {'id': 'dev1', 'attrs': {'fw': '1.2'}}}".

Definition telemetry_event : string :=
  js "{'metadata': {'deviceid': 'dev1', 'tenant': 'tenantA', 'timestamp': 1500000000}, 'attrs': {'temp': 10, 'hum': 50}}".

Definition telemetry_event_other_tenant : string :=
  js "{'metadata': {'deviceid': 'dev1', 'tenant': 'tenantB', 'timestamp': 1500000000}, 'attrs': {'temp': 10, 'hum': 50}}".

Definition empty_event : string :=
  js "{'metadata': {'deviceid': 'dev1', 'tenant': 'tenantA', 'timestamp': 1500000000}, 'attrs': {}}".

Definition status_event : string :=
  js "{'metadata': {'deviceid': 'dev1', 'tenant': 'tenantA', 'timestamp': 1500000000, 'status': 'online'}}".

Definition malformed_event : string := "{not json".

Definition event_without_metadata : string := js "{'attrs': {'temp': 10}}".

Definition event_without_device : string :=
  js "{'metadata': {'tenant': 'tenantA'}, 'attrs': {'temp': 10}}".

(** A persister that has not run [init_mongodb] yet. *)
Definition w_fresh : world (RT := degraded) := mk_world (RT := degraded) None now_us [].

End Reference.

(** ** Sharding *)

Section Sharding.
Context {RT : Runtime}.

(** The two commands [enable_collection_sharding] sends through
    [self.client.admin.command]. *)
Inductive admin_command : Type :=
| EnableSharding (database : string)
| ShardCollection (full_name : string) (key : list (string * string)).

(** What the server answers to a command, and the store afterwards. *)
Variable run_command : store -> admin_command -> outcome unit * store.

(** [self.db.name]: [init_mongodb] takes [self.db] from
    [self.client['device_history']]. *)
Definition db_name : string := "device_history".

(** [self.db[collection_name].full_name] *)
Definition full_name (collection_name : string) : string :=
  db_name ++ "." ++ collection_name.

Definition attr_hashed : index_spec := mk_index [("attr", HASHED)] None.

(** [self.client.admin.command(...)].  [init_mongodb] sets [self.client] and
    [self.db] together, so the handle [db] of the world stands for both. *)
Definition client_admin_command (c : admin_command) : M unit :=
  fun w =>
    match db w with
    | None =>
        (Raise (mk_exn AttributeError "'NoneType' object has no attribute 'admin'"), w)
    | Some st =>
        let (r, st') := run_command st c in
        (r, mk_world (Some st') (clk w) (trace w))
    end.

(** [enable_collection_sharding(self, collection_name)] *)
Definition enable_collection_sharding (collection_name : string) : M unit :=
  db_create_index collection_name attr_hashed ;;;
  client_admin_command (EnableSharding db_name) ;;;
  client_admin_command
    (ShardCollection (full_name collection_name) [("attr", "hashed")]).

End Sharding.

(** ** The shape of a telemetry run *)

Section Shape.
Context {RT : Runtime}.

(** What [handle_decoded] does once the timestamp is normalised: lines
    123-146 with the envelope [env], its metadata [meta] and the device
    [device_id] in place. *)
Definition after_timestamp (tenant : string) (env meta : list (string * pyval))
  (device_id : pyval) (timestamp : datetime) : M unit :=
  attrs <- lift (py_get (VDict env) "attrs" (VDict [])) ;;
  keys <- lift (py_keys attrs) ;;
  docs <- for_each keys
            (fun attr =>
               a <- lift (py_getitem (VDict env) "attrs") ;;
               v <- lift (py_getitem a attr) ;;
               ret (AttrDoc attr v device_id timestamp)) ;;
  device_status <- lift (py_get (VDict meta) "status" VNone) ;;
  let docs :=
    if is_None device_status then docs
    else (docs ++ [StatusDoc device_status device_id timestamp])%list in
  persist tenant device_id docs.

(** A computation that logs and then either stops or hands one batch to
    [persist]. *)
Definition ends_in_persist (tenant : string) (m : M unit) : Prop :=
  forall w,
    exists w1,
      log_only w w1 /\
      (snd (m w) = w1 \/
       exists device_id docs, m w = persist tenant device_id docs w1).

End Shape.

(** ** More events and worlds *)

Module Cases.

Import Reference.

(** A persister whose [init_mongodb] failed: no store handle. *)
Definition w_uninitialised : world (RT := runtime) :=
  mk_world (RT := runtime) None now_us [].

Definition event_with_status : string :=
  js "{'metadata': {'deviceid': 'dev1', 'timestamp': 1500000000, 'status': 'online'}, 'attrs': {'temp': 10}}".

Definition event_without_timestamp : string :=
  js "{'metadata': {'deviceid': 'dev1'}, 'attrs': {'temp': 10}}".

Definition event_with_string_timestamp : string :=
  js "{'metadata': {'deviceid': 'dev1', 'timestamp': '1500000000'}, 'attrs': {'temp': 10}}".

Definition event_with_null_attrs : string :=
  js "{'metadata': {'deviceid': 'dev1', 'timestamp': 1500000000}, 'attrs': null}".

Definition array_event : string := js "[1, 2]".

Definition lifecycle_without_event : string :=
  js "{'meta': {'service': 'tenantA'}, 'data': {'id': 'dev1'}}".

Definition lifecycle_without_id : string :=
  js "{'event': 'create', 'meta': {'service': 'tenantA'}, 'data': {}}".

Definition configure_with_null_id : string :=
  js "{'event': 'configure', 'meta': {'service': 'tenantA'}, 'data': {'id': null, 'attrs': {'fw': '1.2'}}}".

(** Three envelopes whose timestamp is the numeric string ['1500000000']. *)
Definition telemetry_string_timestamp : string :=
  js "{'metadata': {'deviceid': 'dev1', 'tenant': 'tenantA', 'timestamp': '1500000000'}, 'attrs': {'temp': 10, 'hum': 50}}".

Definition empty_string_timestamp : string :=
  js "{'metadata': {'deviceid': 'dev1', 'tenant': 'tenantA', 'timestamp': '1500000000'}, 'attrs': {}}".

Definition status_string_timestamp : string :=
  js "{'metadata': {'deviceid': 'dev1', 'tenant': 'tenantA', 'timestamp': '1500000000', 'status': 'online'}}".

(** A store that takes the descending index and refuses the expiring one. *)
Definition picky_create_index (st : mongo) (coll : string) (ix : index_spec)
  : outcome unit * mongo :=
  match ix_expireAfterSeconds ix with
  | Some _ => (Raise (mk_exn PyMongoError "cannot create index"), st)
  | None => create_index st coll ix
  end.

Definition picky : Runtime :=
  Build_Runtime
    int_of_str float_of_str float_of_int int_of_float float_gt_int int_truediv
    float_div_int (show false)
    utcfromtimestamp dateutil_parse
    time_ms utcnow
    json_loads (show true)
    (Ret empty_store) picky_create_index insert_many
    db_expiration.

Definition w_picky : world (RT := picky) :=
  mk_world (RT := picky) (Some empty_store) now_us [].

(** A runtime whose client cannot be built. *)
Definition clientless : Runtime :=
  runtime_with (Raise (mk_exn PyMongoError "Invalid URI")).

Definition w_clientless : world (RT := clientless) :=
  mk_world (RT := clientless) None now_us [].

(** A deployment without sharding: every admin command is refused. *)
Definition no_sharding (st : mongo) (c : admin_command) : outcome unit * mongo :=
  (Raise (mk_exn PyMongoError "no such command"), st).

(** A sharded deployment: every admin command is accepted. *)
Definition sharded (st : mongo) (c : admin_command) : outcome unit * mongo :=
  (Ret tt, st).

End Cases.

(** * Properties *)

(** ** The monad *)

Section MonadFacts.
Context {RT : Runtime}.

Lemma bind_Ret {A B : Type} (m : M A) (k : A -> M B) w a w' :
  m w = (Ret a, w') -> bind m k w = k a w'.
Proof. intros H. unfold bind. now rewrite H. Qed.

Lemma db_calls_app (t u : list pyevent) :
  db_calls (t ++ u) = (db_calls t ++ db_calls u)%list.
Proof. unfold db_calls. apply filter_app. Qed.

Lemma db_calls_log (t : list pyevent) lvl msg :
  db_calls (t ++ [Log lvl msg]) = db_calls t.
Proof. rewrite db_calls_app. simpl. apply app_nil_r. Qed.

Lemma log_only_refl (w : world) : log_only w w.
Proof.
  repeat split. exists []. split; [now rewrite app_nil_r | reflexivity].
Qed.

Lemma log_only_trans (w1 w2 w3 : world) :
  log_only w1 w2 -> log_only w2 w3 -> log_only w1 w3.
Proof.
  intros (Hd1 & Hc1 & l1 & Ht1 & Hl1) (Hd2 & Hc2 & l2 & Ht2 & Hl2).
  repeat split; try congruence.
  exists (l1 ++ l2)%list. split.
  - rewrite Ht2, Ht1. now rewrite app_assoc.
  - rewrite db_calls_app, Hl1, Hl2. reflexivity.
Qed.

Lemma log_only_emit (w : world) lvl msg : log_only w (emit (Log lvl msg) w).
Proof. repeat split. exists [Log lvl msg]. split; reflexivity. Qed.

Lemma log_only_db_calls (w w' : world) :
  log_only w w' -> db_calls (trace w') = db_calls (trace w).
Proof.
  intros (_ & _ & l & Ht & Hl). rewrite Ht, db_calls_app, Hl. apply app_nil_r.
Qed.

Lemma log_only_sim (w w' : world) : log_only w w' -> sim w w'.
Proof.
  intros H. pose proof (log_only_db_calls H) as Hc.
  destruct H as (Hd & Hk & _). repeat split; congruence.
Qed.

Lemma sim_sym (w1 w2 : world) : sim w1 w2 -> sim w2 w1.
Proof. intros (? & ? & ?). repeat split; congruence. Qed.

Lemma sim_trans (w1 w2 w3 : world) : sim w1 w2 -> sim w2 w3 -> sim w1 w3.
Proof. intros (? & ? & ?) (? & ? & ?). repeat split; congruence. Qed.

Lemma bind_lift_Ret {A B : Type} (a : A) (k : A -> M B) :
  bind (lift (Ret a)) k = k a.
Proof. reflexivity. Qed.

Lemma writes_into_refl coll (w : world) : writes_into coll w w.
Proof.
  split; [reflexivity |]. exists []. split; [now rewrite app_nil_r | constructor].
Qed.

Lemma writes_into_trans coll (w1 w2 w3 : world) :
  writes_into coll w1 w2 -> writes_into coll w2 w3 -> writes_into coll w1 w3.
Proof.
  intros (Hc1 & l1 & Ht1 & Hl1) (Hc2 & l2 & Ht2 & Hl2).
  split; [congruence |]. exists (l1 ++ l2)%list. split.
  - rewrite Ht2, Ht1. now rewrite app_assoc.
  - apply Forall_app. now split.
Qed.

Lemma log_only_writes_into coll (w w' : world) :
  log_only w w' -> writes_into coll w w'.
Proof.
  intros (_ & Hc & l & Ht & Hl). split; [exact Hc |]. exists l. split; [exact Ht |].
  clear Ht. induction l as [| ev l IH]; [constructor |].
  destruct ev; simpl in Hl; try discriminate.
  constructor; [exact I | now apply IH].
Qed.

(** *** Computations that move the world along a preorder *)

Section Steps.
Variable R : world -> world -> Prop.
Hypothesis R_refl : forall w, R w w.
Hypothesis R_trans : forall w1 w2 w3, R w1 w2 -> R w2 w3 -> R w1 w3.

Lemma steps_ret {A : Type} (a : A) : steps R (ret a).
Proof. intros w. apply R_refl. Qed.

Lemma steps_raise {A : Type} (e : exn) : steps R (raise (A := A) e).
Proof. intros w. apply R_refl. Qed.

Lemma steps_lift {A : Type} (o : outcome A) : steps R (lift o).
Proof. intros w. apply R_refl. Qed.

Lemma steps_read_clock {A : Type} (f : clock -> A) : steps R (read_clock f).
Proof. intros w. apply R_refl. Qed.

Lemma steps_bind {A B : Type} (m : M A) (k : A -> M B) :
  steps R m -> (forall a, steps R (k a)) -> steps R (bind m k).
Proof.
  intros Hm Hk w. unfold bind. specialize (Hm w).
  destruct (m w) as [[a | e] w']; simpl in *.
  - eapply R_trans; [exact Hm | apply Hk].
  - exact Hm.
Qed.

Lemma steps_try_except {A : Type} (m : M A) cls (h : exn -> M A) :
  steps R m -> (forall e, steps R (h e)) -> steps R (try_except m cls h).
Proof.
  intros Hm Hh w. unfold try_except. specialize (Hm w).
  destruct (m w) as [[a | e] w']; simpl in *.
  - exact Hm.
  - destruct (isinstance (exn_cls e) cls); simpl.
    + eapply R_trans; [exact Hm | apply Hh].
    + exact Hm.
Qed.

Lemma steps_for_each {A B : Type} (l : list A) (f : A -> M B) :
  (forall a, steps R (f a)) -> steps R (for_each l f).
Proof.
  intros H. induction l as [| a l IH]; simpl.
  - apply steps_ret.
  - apply steps_bind; [apply H |]. intros b.
    apply steps_bind; [exact IH |]. intros bs. apply steps_ret.
Qed.

End Steps.

Lemma quiet_log lvl msg : quiet (log lvl msg).
Proof. intros w. apply log_only_emit. Qed.

(** *** Computations that do not depend on the log *)

Lemma related_ret {A : Type} (a : A) : related (ret a) (ret a).
Proof. intros w1 w2 H. split; [reflexivity | exact H]. Qed.

Lemma related_raise {A : Type} (e : exn) : related (raise (A := A) e) (raise e).
Proof. intros w1 w2 H. split; [reflexivity | exact H]. Qed.

Lemma related_lift {A : Type} (o : outcome A) : related (lift o) (lift o).
Proof. intros w1 w2 H. split; [reflexivity | exact H]. Qed.

Lemma related_read_clock {A : Type} (f : clock -> A) :
  related (read_clock f) (read_clock f).
Proof.
  intros w1 w2 H. split; [| exact H].
  destruct H as (_ & Hc & _). simpl. now rewrite Hc.
Qed.

Lemma related_log lvl1 msg1 lvl2 msg2 : related (log lvl1 msg1) (log lvl2 msg2).
Proof.
  intros w1 w2 (Hd & Hc & Ht). split; [reflexivity |].
  repeat split; simpl; try assumption. now rewrite !db_calls_log.
Qed.

Lemma related_bind {A B : Type} (m1 m2 : M A) (k1 k2 : A -> M B) :
  related m1 m2 -> (forall a, related (k1 a) (k2 a)) ->
  related (bind m1 k1) (bind m2 k2).
Proof.
  intros Hm Hk w1 w2 H. unfold bind. destruct (Hm w1 w2 H) as [Ho Hs].
  destruct (m1 w1) as [[a1 | e1] w1'], (m2 w2) as [[a2 | e2] w2'];
    simpl in *; try discriminate.
  - injection Ho as ->. now apply Hk.
  - injection Ho as ->. split; [reflexivity | exact Hs].
Qed.

Lemma related_try_except {A : Type} (m1 m2 : M A) cls (h1 h2 : exn -> M A) :
  related m1 m2 -> (forall e, related (h1 e) (h2 e)) ->
  related (try_except m1 cls h1) (try_except m2 cls h2).
Proof.
  intros Hm Hh w1 w2 H. unfold try_except. destruct (Hm w1 w2 H) as [Ho Hs].
  destruct (m1 w1) as [[a1 | e1] w1'], (m2 w2) as [[a2 | e2] w2'];
    simpl in *; try discriminate.
  - injection Ho as ->. split; [reflexivity | exact Hs].
  - injection Ho as ->. destruct (isinstance (exn_cls e2) cls).
    + now apply Hh.
    + split; [reflexivity | exact Hs].
Qed.

Lemma related_db_insert_many coll docs :
  related (db_insert_many coll docs) (db_insert_many coll docs).
Proof.
  intros w1 w2 (Hd & Hc & Ht). unfold db_insert_many. rewrite Hd.
  destruct (db w2) as [st |] eqn:E; simpl.
  - destruct (insert_many st coll docs) as [r st']. simpl.
    split; [reflexivity |]. split; [reflexivity |]. split; [exact Hc |].
    simpl. now rewrite !db_calls_app, Ht.
  - split; [reflexivity |]. split; [congruence |]. split; assumption.
Qed.

Lemma related_for_each {A B : Type} (l : list A) (f g : A -> M B) :
  (forall a, related (f a) (g a)) -> related (for_each l f) (for_each l g).
Proof.
  intros H. induction l as [| a l IH]; simpl.
  - apply related_ret.
  - apply related_bind; [apply H |]. intros b.
    apply related_bind; [exact IH |]. intros bs. apply related_ret.
Qed.

End MonadFacts.

(** Unfolds one layer of monadic plumbing in a goal about [steps] or
    [related], branching where the code branches. *)
Ltac branch :=
  match goal with
  | |- context [if ?b then _ else _] => destruct b
  | |- context [match ?x with _ => _ end] => destruct x
  end.

Ltac quiet_step :=
  first
    [ apply (steps_ret _ log_only_refl)
    | apply (steps_raise _ log_only_refl)
    | apply (steps_lift _ log_only_refl)
    | apply (steps_read_clock _ log_only_refl)
    | apply quiet_log
    | apply (steps_bind log_only_trans); [| intros ?]
    | apply (steps_try_except log_only_trans); [| intros ?] ].

Ltac related_step :=
  first
    [ apply related_ret
    | apply related_raise
    | apply related_lift
    | apply related_read_clock
    | apply related_log
    | apply related_db_insert_many
    | apply related_bind; [| intros ?]
    | apply related_try_except; [| intros ?]
    | apply related_for_each; intros ? ].

(** ** The Timestamp Normalizer: [parse_datetime] *)

Section Timestamp.
Context {RT : Runtime}.

Lemma parse_datetime_quiet (timestamp : pyval) : quiet (parse_datetime timestamp).
Proof.
  unfold quiet, parse_datetime, attempt, as_integer_count, as_float_millis.
  repeat first [quiet_step | branch].
Qed.

Lemma parse_datetime_related (timestamp : pyval) :
  related (parse_datetime timestamp) (parse_datetime timestamp).
Proof.
  unfold parse_datetime, attempt, as_integer_count, as_float_millis.
  repeat first [related_step | branch].
Qed.

(** The outcome of normalisation does not depend on what was logged before. *)
Lemma parse_datetime_stable (timestamp : pyval) (w w' : world) :
  log_only w w' ->
  fst (parse_datetime timestamp w') = fst (parse_datetime timestamp w).
Proof.
  intros H. symmetry.
  apply (parse_datetime_related timestamp (log_only_sim H)).
Qed.

(** An absent timestamp is the processing instant. *)
Lemma parse_datetime_absent (w : world) :
  parse_datetime VNone w = (Ret (utcnow (clk w)), w).
Proof. reflexivity. Qed.

(** An integer up to [2^31 - 1] is a count of seconds. *)
Lemma parse_datetime_int_seconds (t : Z) (f : float) (dt : datetime) (w : world) :
  t <= max_seconds ->
  float_of_int t = Some f ->
  utcfromtimestamp f = Ret dt ->
  parse_datetime (VInt t) w = (Ret dt, w).
Proof.
  intros Ht Hf Hdt.
  unfold parse_datetime, attempt, as_integer_count, try_except, bind, lift, ret,
    py_int, py_gt_int, py_float, int_to_float.
  replace (t >? max_seconds) with false
    by (symmetry; rewrite Z.gtb_ltb; apply Z.ltb_ge; lia).
  simpl. rewrite Hf, Hdt. reflexivity.
Qed.

(** An integer above [2^31 - 1] is a count of milliseconds. *)
Lemma parse_datetime_int_millis (t : Z) (q : float) (dt : datetime) (w : world) :
  max_seconds < t ->
  int_truediv t 1000 = Some q ->
  utcfromtimestamp q = Ret dt ->
  parse_datetime (VInt t) w = (Ret dt, w).
Proof.
  intros Ht Hq Hdt.
  unfold parse_datetime, attempt, as_integer_count, try_except, bind, lift, ret,
    py_int, py_gt_int, py_truediv.
  replace (t >? max_seconds) with true by (symmetry; apply Z.gtb_lt; lia).
  simpl. rewrite Hq, Hdt. reflexivity.
Qed.

End Timestamp.

(** ** The Document Builder and the Persistence Sink: [handle_event_data] *)

Section DocumentBuilder.
Context {RT : Runtime}.

Lemma is_None_false (v : pyval) : v <> VNone -> is_None v = false.
Proof. destruct v; simpl; congruence. Qed.

Lemma dict_lookup_key {V : Type} (k : string) (d : list (string * V)) :
  In k (dict_keys d) -> exists v, dict_lookup k d = Some v.
Proof.
  induction d as [| [k' v'] d IH]; simpl; [contradiction |].
  intros [-> | Hin].
  - rewrite String.eqb_refl. now exists v'.
  - destruct (String.eqb k' k); [now exists v' | now apply IH].
Qed.

(** The loop over [attrs.keys()] never raises and leaves the world alone. *)
Lemma attribute_loop env attrs (device_id : pyval) (ts : datetime) ks (w : world) :
  dict_get "attrs" env (VDict []) = VDict attrs ->
  incl ks (dict_keys attrs) ->
  for_each ks
    (fun attr =>
       a <- lift (py_getitem (VDict env) "attrs") ;;
       v <- lift (py_getitem a attr) ;;
       ret (AttrDoc attr v device_id ts)) w =
  (Ret (map (fun attr => AttrDoc attr (dict_get attr attrs VNone) device_id ts) ks), w).
Proof.
  intros Hattrs. induction ks as [| k ks IH]; intros Hincl; [reflexivity |].
  assert (Hk : In k (dict_keys attrs)) by (apply Hincl; now left).
  destruct (dict_lookup_key k attrs Hk) as [v Hv].
  assert (Hget : dict_lookup "attrs" env = Some (VDict attrs)).
  { unfold dict_get in Hattrs. destruct (dict_lookup "attrs" env) as [x |].
    - now subst x.
    - injection Hattrs as <-. contradiction. }
  cbn [for_each]. unfold bind at 1. unfold bind at 1. unfold lift at 1.
  unfold py_getitem at 1. rewrite Hget.
  unfold bind at 1. unfold lift at 1. unfold py_getitem at 1. rewrite Hv.
  unfold ret at 1. unfold bind at 1.
  rewrite IH by (intros x Hx; apply Hincl; now right).
  unfold ret. cbn [map].
  replace (dict_get k attrs VNone) with v by (unfold dict_get; now rewrite Hv).
  reflexivity.
Qed.

Lemma persist_returns tenant (device_id : pyval) docs (w : world) :
  fst (persist tenant device_id docs w) = Ret tt.
Proof.
  destruct docs as [| d docs]; [reflexivity |].
  unfold persist, try_except, db_insert_many.
  destruct (db w) as [st |]; [| reflexivity].
  destruct (insert_many st _ _) as [[[] | e] st']; reflexivity.
Qed.

Lemma persist_empty tenant (device_id : pyval) (w : world) :
  persist tenant device_id [] w =
  (Ret tt,
   emit (Log INFO ("Got empty event from device [" ++ py_str device_id ++ "] - ignoring")) w).
Proof. reflexivity. Qed.

Lemma persist_db_calls tenant (device_id : pyval) docs st (w : world) :
  db w = Some st ->
  db_calls (trace (snd (persist tenant device_id docs w))) =
  (db_calls (trace w) ++ batch_calls (collection_name_of tenant device_id) docs)%list.
Proof.
  intros Hdb. destruct docs as [| d docs].
  - rewrite persist_empty. simpl. now rewrite db_calls_log, app_nil_r.
  - unfold persist, try_except, db_insert_many. rewrite Hdb.
    destruct (insert_many st _ _) as [[[] | e] st']; simpl.
    + now rewrite db_calls_app.
    + now rewrite db_calls_log, db_calls_app.
Qed.

(** A decodable event is logged and handed on. *)
Lemma decode_event_Ret message (data : pyval) (w : world) :
  json_loads message = Ret data ->
  decode_event message w =
  (Ret (Some data), emit (Log INFO ("THIS IS THE DATA: " ++ py_str data)) w).
Proof.
  intros H. unfold decode_event, try_except, bind, lift, log, ret.
  now rewrite H.
Qed.

(** An undecodable one is dropped with one error entry. *)
Lemma decode_event_Raise message (e : exn) (w : world) :
  json_loads message = Raise e ->
  decode_event message w =
  (Ret None,
   emit (Log ERROR ("Received event is not valid JSON. Ignoring" ++ nl ++ exn_msg e)) w).
Proof.
  intros H. unfold decode_event, try_except, bind, lift, log, ret.
  now rewrite H.
Qed.

(** The run of [handle_event_data] on an envelope that has its metadata, a
    device and a timestamp that normalises: some logging, then the batch is
    handed to [persist]. *)
Lemma handle_event_data_run tenant message env meta (dev : pyval) (ts : datetime)
  attrs (w : world) :
  json_loads message = Ret (VDict env) ->
  dict_lookup "metadata" env = Some (VDict meta) ->
  dict_lookup "deviceid" meta = Some dev ->
  dev <> VNone ->
  fst (parse_datetime (dict_get "timestamp" meta VNone) w) = Ret ts ->
  dict_get "attrs" env (VDict []) = VDict attrs ->
  exists w1,
    log_only w w1 /\
    handle_event_data tenant message w =
    persist tenant dev
      (attribute_documents attrs dev ts
         ++ status_documents (dict_get "status" meta VNone) dev ts) w1.
Proof.
  intros Hjson Hmeta Hdev Hnone Hts Hattrs.
  unfold handle_event_data.
  erewrite bind_Ret by (apply decode_event_Ret; exact Hjson).
  set (w1 := emit _ w).
  unfold handle_decoded. unfold log at 1. unfold bind at 1.
  set (w2 := emit _ w1).
  assert (H12 : log_only w w2).
  { eapply log_only_trans; apply log_only_emit. }
  assert (Hm : dict_get "metadata" env VNone = VDict meta)
    by (unfold dict_get; now rewrite Hmeta).
  assert (Hd : dict_get "deviceid" meta VNone = dev)
    by (unfold dict_get; now rewrite Hdev).
  unfold bind at 1, lift at 1, py_get at 1. rewrite Hm. cbn [is_None].
  unfold bind at 1, lift at 1, py_get at 1. rewrite Hd, (is_None_false Hnone).
  unfold bind at 1, lift at 1, py_get at 1.
  pose proof (parse_datetime_quiet (dict_get "timestamp" meta VNone) w2) as H23.
  pose proof (parse_datetime_stable (dict_get "timestamp" meta VNone) H12) as Hst.
  rewrite Hts in Hst.
  unfold bind at 1.
  destruct (parse_datetime (dict_get "timestamp" meta VNone) w2) as [o w3].
  simpl in Hst, H23. subst o.
  exists w3. split; [eapply log_only_trans; eassumption |].
  unfold bind at 1, lift at 1, py_get at 1. rewrite Hattrs.
  unfold bind at 1, lift at 1, py_keys at 1.
  unfold bind at 1.
  rewrite (attribute_loop env dev ts w3 Hattrs (incl_refl _)).
  unfold bind at 1, lift at 1, py_get at 1.
  unfold attribute_documents, status_documents.
  destruct (is_None (dict_get "status" meta VNone)).
  - now rewrite app_nil_r.
  - reflexivity.
Qed.

Lemma persist_related tenant (device_id : pyval) docs :
  related (persist tenant device_id docs) (persist tenant device_id docs).
Proof. unfold persist. destruct docs; repeat related_step. Qed.

Lemma persist_writes_into tenant (device_id : pyval) docs :
  steps (writes_into (collection_name_of tenant device_id))
    (persist tenant device_id docs).
Proof.
  intros w. destruct docs as [| d docs].
  - rewrite persist_empty. apply log_only_writes_into, log_only_emit.
  - unfold persist, try_except, db_insert_many.
    destruct (db w) as [st |]; [| apply log_only_writes_into, log_only_emit].
    destruct (insert_many st _ _) as [[[] | e] st']; simpl.
    + split; [reflexivity |]. exists [InsertMany (collection_name_of tenant device_id) (d :: docs)].
      split; [reflexivity |]. repeat constructor.
    + split; [reflexivity |]. eexists. split.
      * simpl. rewrite <- app_assoc. reflexivity.
      * repeat constructor.
Qed.

(** [handle_decoded] reads the envelope only through [metadata.deviceid],
    [metadata.timestamp], [metadata.status] and [attrs]: on two envelopes that
    agree there it makes the same store calls and ends alike. *)
Lemma handle_decoded_related tenant message1 message2 env1 env2 meta1 meta2 :
  dict_lookup "metadata" env1 = Some (VDict meta1) ->
  dict_lookup "metadata" env2 = Some (VDict meta2) ->
  dict_lookup "attrs" env1 = dict_lookup "attrs" env2 ->
  dict_lookup "deviceid" meta1 = dict_lookup "deviceid" meta2 ->
  dict_lookup "timestamp" meta1 = dict_lookup "timestamp" meta2 ->
  dict_lookup "status" meta1 = dict_lookup "status" meta2 ->
  related (handle_decoded tenant message1 (VDict env1))
    (handle_decoded tenant message2 (VDict env2)).
Proof.
  intros Hm1 Hm2 Hattrs Hdev Hts Hstatus.
  unfold handle_decoded, py_get, py_getitem, dict_get.
  rewrite Hm1, Hm2, Hattrs.
  apply related_bind; [apply related_log | intros _].
  rewrite !bind_lift_Ret. cbn beta iota delta [is_None].
  rewrite Hdev, Hts, Hstatus.
  repeat first
    [ apply parse_datetime_related | apply persist_related | related_step | branch ].
Qed.

(** Whatever [handle_decoded] writes, it writes into the collection named
    from the [tenant] argument and [metadata.deviceid]. *)
Lemma handle_decoded_writes_into tenant message env meta :
  dict_lookup "metadata" env = Some (VDict meta) ->
  steps (writes_into (collection_name_of tenant (dict_get "deviceid" meta VNone)))
    (handle_decoded tenant message (VDict env)).
Proof.
  intros Hm.
  set (coll := collection_name_of tenant (dict_get "deviceid" meta VNone)).
  assert (Hq : forall (A : Type) (m : M A), quiet m -> steps (writes_into coll) m).
  { intros A m H w. apply log_only_writes_into, H. }
  unfold handle_decoded.
  apply (steps_bind (@writes_into_trans _ coll)); [apply Hq, quiet_log | intros _].
  unfold py_get at 1. unfold dict_get at 1. rewrite Hm, bind_lift_Ret. cbn [is_None].
  unfold py_get at 1. rewrite bind_lift_Ret.
  destruct (is_None (dict_get "deviceid" meta VNone)); [apply Hq, quiet_log |].
  repeat first
    [ apply persist_writes_into
    | apply Hq, parse_datetime_quiet
    | apply (steps_lift _ (@writes_into_refl _ coll))
    | apply (steps_ret _ (@writes_into_refl _ coll))
    | apply (steps_bind (@writes_into_trans _ coll)); [| intros ?]
    | apply (steps_for_each (@writes_into_refl _ coll) (@writes_into_trans _ coll));
      intros ? ].
Qed.

(** Up to the timestamp: an envelope with its metadata and a device reaches
    [parse_datetime] after the two entries that log the payload. *)
Lemma handle_event_data_to_timestamp tenant message env meta (dev : pyval)
  (w : world) :
  json_loads message = Ret (VDict env) ->
  dict_lookup "metadata" env = Some (VDict meta) ->
  dict_lookup "deviceid" meta = Some dev ->
  dev <> VNone ->
  handle_event_data tenant message w =
  bind (parse_datetime (dict_get "timestamp" meta VNone))
    (after_timestamp tenant env meta dev)
    (emit (Log DEBUG ("got data event " ++ message))
       (emit (Log INFO ("THIS IS THE DATA: " ++ py_str (VDict env))) w)).
Proof.
  intros Hjson Hmeta Hdev Hnone.
  unfold handle_event_data.
  erewrite bind_Ret by (apply decode_event_Ret; exact Hjson).
  unfold handle_decoded. unfold log at 1. unfold bind at 1.
  assert (Hm : dict_get "metadata" env VNone = VDict meta)
    by (unfold dict_get; now rewrite Hmeta).
  assert (Hd : dict_get "deviceid" meta VNone = dev)
    by (unfold dict_get; now rewrite Hdev).
  unfold bind at 1, lift at 1, py_get at 1. rewrite Hm. cbn [is_None].
  unfold bind at 1, lift at 1, py_get at 1. rewrite Hd, (is_None_false Hnone).
  unfold bind at 1, lift at 1, py_get at 1.
  reflexivity.
Qed.

End DocumentBuilder.

(** ** Claims on the Timestamp Normalizer *)

Section TimestampClaims.
Context {RT : Runtime}.

(** C1.  A numeric string is not normalised: once [int(timestamp)] has
    succeeded, the test [timestamp > (2**31)-1] orders the string itself
    against an integer and raises [TypeError], which the [except ValueError]
    clause does not catch.  Nothing is logged and no instant is returned,
    whatever the runtime. *)
Theorem parse_datetime_numeric_string_raises (s : string) (z : Z) (w : world) :
  int_of_str s = Some z ->
  parse_datetime (VStr s) w = (Raise (unorderable (VStr s)), w).
Proof.
  intros Hz.
  unfold parse_datetime, attempt, as_integer_count, try_except, bind, lift, ret,
    py_int, py_gt_int.
  simpl. rewrite Hz. reflexivity.
Qed.

(** Integer timestamps: one up to [2^31 - 1] is read as seconds, and one
    above it as milliseconds, whenever the runtime has an instant for the
    value read; nothing is logged. *)
Lemma parse_datetime_integer_threshold (t : Z) (dt : datetime) (w : world) :
  (t <= max_seconds ->
   forall f, float_of_int t = Some f -> utcfromtimestamp f = Ret dt ->
             parse_datetime (VInt t) w = (Ret dt, w))
  /\ (max_seconds < t ->
      forall q, int_truediv t 1000 = Some q -> utcfromtimestamp q = Ret dt ->
                parse_datetime (VInt t) w = (Ret dt, w)).
Proof.
  split; intros Ht x Hx Hdt.
  - exact (parse_datetime_int_seconds w Ht Hx Hdt).
  - exact (parse_datetime_int_millis w Ht Hx Hdt).
Qed.

(** C4, as the code has it.  For a string that [int], [float] and the date
    parser all reject, [parse_datetime] logs the two failed numeric readings
    at error level, each entry naming the input, and then raises; it returns
    no instant.  What it raises is the date parser's own error, unchanged,
    unless that error is a [TypeError]: only then is it replaced by
    [TypeError('Timestamp could not be parsed: <input>\n<error>')]. *)
Theorem parse_datetime_unparseable_string (s : string) (e : exn) (w : world) :
  int_of_str s = None ->
  float_of_str s = None ->
  dateutil_parse (VStr s) = Raise e ->
  parse_datetime (VStr s) w =
    (Raise (if isinstance (exn_cls e) TypeError
            then could_not_be_parsed (VStr s) e
            else e),
     emit (Log ERROR (failed_to_parse (VStr s) (invalid_float_literal (VStr s))))
       (emit (Log ERROR (failed_to_parse (VStr s) (invalid_int_literal (VStr s)))) w)).
Proof.
  intros Hi Hf Hd.
  unfold parse_datetime, attempt, as_integer_count, as_float_millis, try_except,
    bind, lift, ret, raise, log, py_int, py_float.
  simpl. rewrite Hi. simpl. rewrite Hf. simpl. rewrite Hd.
  destruct (exn_cls e); reflexivity.
Qed.

End TimestampClaims.

(** C1 on the reference runtime: the string ["1500000000"]. *)
Lemma parse_datetime_numeric_string_raises_witness :
  int_of_str (Runtime := Reference.runtime) "1500000000" = Some 1500000000 /\
  parse_datetime (RT := Reference.runtime) (VStr "1500000000") Reference.w0 =
    (Raise (mk_exn TypeError "'>' not supported between instances of 'str' and 'int'"),
     Reference.w0).
Proof.
  split; [reflexivity |].
  apply (parse_datetime_numeric_string_raises (RT := Reference.runtime)
           "1500000000" (z := 1500000000) Reference.w0).
  reflexivity.
Defined.

(** C4 as stated fails: for ["garbage"] the error that escapes is the date
    parser's [ParserError], not the composed
    ['Timestamp could not be parsed: ...'] error that names the input and the
    failed reading. *)
Lemma parse_datetime_garbage_raises_parser_error :
  fst (parse_datetime (RT := Reference.runtime) (VStr "garbage") Reference.w0) =
    Raise (mk_exn ParserError "Unknown string format: garbage") /\
  ~ (exists error : exn,
       fst (parse_datetime (RT := Reference.runtime) (VStr "garbage") Reference.w0) =
         Raise (could_not_be_parsed (RT := Reference.runtime) (VStr "garbage") error)).
Proof.
  split; [reflexivity |].
  intros [error H]. vm_compute in H. discriminate H.
Qed.

(** C4 on the reference runtime: the string ["garbage"]. *)
Lemma parse_datetime_unparseable_string_witness :
  parse_datetime (RT := Reference.runtime) (VStr "garbage") Reference.w0 =
  (Raise (mk_exn ParserError "Unknown string format: garbage"),
   mk_world (RT := Reference.runtime) (Some Reference.empty_store) Reference.now_us
     [Log ERROR ("Failed to parse timestamp (garbage)" ++ nl
                   ++ "invalid literal for int() with base 10: 'garbage'");
      Log ERROR ("Failed to parse timestamp (garbage)" ++ nl
                   ++ "could not convert string to float: 'garbage'")]).
Proof.
  apply (parse_datetime_unparseable_string (RT := Reference.runtime)
           "garbage" (e := mk_exn ParserError "Unknown string format: garbage")
           Reference.w0);
    reflexivity.
Defined.

(** ** Claims on [handle_event_data] *)

Section TelemetryClaims.
Context {RT : Runtime}.

(** A payload that is not JSON is dropped by the telemetry handler: one
    error entry, no store call, no exception. *)
Lemma handle_event_data_malformed tenant message (e : exn) (w : world) :
  json_loads message = Raise e ->
  handle_event_data tenant message w =
  (Ret tt,
   emit (Log ERROR ("Received event is not valid JSON. Ignoring" ++ nl ++ exn_msg e)) w).
Proof.
  intros H. unfold handle_event_data.
  erewrite bind_Ret by (apply decode_event_Raise; exact H). reflexivity.
Qed.

(** An envelope without [metadata] (or with a null one) is dropped with an
    error entry; so is one whose metadata has no [deviceid].  Neither makes a
    store call. *)
Lemma handle_event_data_missing_field tenant message env (w : world) :
  json_loads message = Ret (VDict env) ->
  (dict_get "metadata" env VNone = VNone ->
   handle_event_data tenant message w =
   (Ret tt,
    emit (Log ERROR "Received event has no metadata associated with it. Ignoring")
      (emit (Log DEBUG ("got data event " ++ message))
         (emit (Log INFO ("THIS IS THE DATA: " ++ py_str (VDict env))) w))))
  /\ (forall meta,
        dict_get "metadata" env VNone = VDict meta ->
        dict_get "deviceid" meta VNone = VNone ->
        handle_event_data tenant message w =
        (Ret tt,
         emit (Log ERROR "Received event cannot be traced to a valid device. Ignoring")
           (emit (Log DEBUG ("got data event " ++ message))
              (emit (Log INFO ("THIS IS THE DATA: " ++ py_str (VDict env))) w)))).
Proof.
  intros Hjson. split.
  - intros Hm. unfold handle_event_data.
    erewrite bind_Ret by (apply decode_event_Ret; exact Hjson).
    unfold handle_decoded, bind, lift, log, py_get. now rewrite Hm.
  - intros meta Hm Hd. unfold handle_event_data.
    erewrite bind_Ret by (apply decode_event_Ret; exact Hjson).
    unfold handle_decoded, bind, lift, log, py_get. rewrite Hm. cbn [is_None].
    now rewrite Hd.
Qed.

(** A numeric-string timestamp is fatal to its event.  The string reaches
    [parse_datetime] after the payload has been logged twice; [int] accepts
    it, the comparison of the string with [2^31 - 1] raises [TypeError], and
    nothing catches it, in [parse_datetime] or in the handler.  The world is
    left with the two log entries: no document was built, no store call made,
    nothing else logged. *)
Lemma handle_event_data_numeric_string tenant message env meta (dev : pyval)
  (s : string) (z : Z) (w : world) :
  json_loads message = Ret (VDict env) ->
  dict_lookup "metadata" env = Some (VDict meta) ->
  dict_lookup "deviceid" meta = Some dev ->
  dev <> VNone ->
  dict_lookup "timestamp" meta = Some (VStr s) ->
  int_of_str s = Some z ->
  handle_event_data tenant message w =
  (Raise (unorderable (VStr s)),
   emit (Log DEBUG ("got data event " ++ message))
     (emit (Log INFO ("THIS IS THE DATA: " ++ py_str (VDict env))) w)).
Proof.
  intros Hjson Hmeta Hdev Hnone Hts Hz.
  rewrite (handle_event_data_to_timestamp tenant message w Hjson Hmeta Hdev Hnone).
  assert (Ht : dict_get "timestamp" meta VNone = VStr s)
    by (unfold dict_get; now rewrite Hts).
  rewrite Ht. unfold bind at 1.
  unfold parse_datetime, attempt, as_integer_count, try_except, bind, lift, ret,
    py_int, py_gt_int.
  simpl. rewrite Hz. reflexivity.
Qed.

(** C7.  Where the handler does what the claim says, and where it does not.
    The envelope has metadata, a device, [attrs] with [n] keys and no status.
    When its timestamp normalises to [ts] (the call of [parse_datetime]
    returns), the batch is [attribute_documents attrs dev ts]: [n] attribute
    documents, no status document, every one stamped [ts]; it is written by
    one [insert_many] (by none when [n] is 0).  When its timestamp is a
    numeric string, the handler raises the [TypeError] of [parse_datetime]
    instead, having only logged the payload: no document is built. *)
Theorem handle_event_data_attribute_documents tenant message env meta
  (dev : pyval) attrs (w : world) :
  json_loads message = Ret (VDict env) ->
  dict_lookup "metadata" env = Some (VDict meta) ->
  dict_lookup "deviceid" meta = Some dev ->
  dev <> VNone ->
  dict_lookup "attrs" env = Some (VDict attrs) ->
  dict_get "status" meta VNone = VNone ->
  (forall (ts : datetime) (st : store),
     fst (parse_datetime (dict_get "timestamp" meta VNone) w) = Ret ts ->
     db w = Some st ->
     db_calls (trace (snd (handle_event_data tenant message w))) =
       (db_calls (trace w)
          ++ batch_calls (collection_name_of tenant dev)
               (attribute_documents attrs dev ts))%list
     /\ List.length (filter is_attr_doc (attribute_documents attrs dev ts)) =
          List.length (dict_keys attrs)
     /\ filter is_status_doc (attribute_documents attrs dev ts) = []
     /\ Forall (fun d => doc_ts d = ts) (attribute_documents attrs dev ts))
  /\ (forall (s : string) (z : Z),
        dict_lookup "timestamp" meta = Some (VStr s) ->
        int_of_str s = Some z ->
        handle_event_data tenant message w =
        (Raise (unorderable (VStr s)),
         emit (Log DEBUG ("got data event " ++ message))
           (emit (Log INFO ("THIS IS THE DATA: " ++ py_str (VDict env))) w))).
Proof.
  intros Hjson Hmeta Hdev Hnone Hattrs Hstatus. split.
  - intros ts st Hts Hdb.
    assert (Ha : dict_get "attrs" env (VDict []) = VDict attrs)
      by (unfold dict_get; now rewrite Hattrs).
    destruct (handle_event_data_run tenant message w Hjson Hmeta Hdev Hnone Hts Ha)
      as (w1 & Hlog & Hrun).
    rewrite Hstatus in Hrun. cbn [status_documents is_None] in Hrun.
    rewrite app_nil_r in Hrun.
    split; [| split; [| split]].
    + rewrite Hrun. destruct Hlog as (Hdb1 & _ & logs & Ht & Hlogs).
      erewrite persist_db_calls by (rewrite Hdb1; exact Hdb).
      now rewrite Ht, db_calls_app, Hlogs, app_nil_r.
    + unfold attribute_documents. induction (dict_keys attrs) as [| k ks IH];
        simpl; [reflexivity | now rewrite IH].
    + unfold attribute_documents. induction (dict_keys attrs) as [| k ks IH];
        simpl; [reflexivity | exact IH].
    + unfold attribute_documents. apply Forall_map, Forall_forall. reflexivity.
  - intros s z Hs Hz.
    exact (handle_event_data_numeric_string tenant message w
             Hjson Hmeta Hdev Hnone Hs Hz).
Qed.

(** C8.  Where the handler does what the claim says, and where it does not.
    The envelope has metadata, a device, an empty [attrs] and no status.
    When its timestamp normalises (the call of [parse_datetime] returns), the
    batch is empty: the handler returns, [insert_many] is not called (no
    store call at all, the store handle untouched), and the run is the
    payload logged at info and at debug level, whatever the normaliser logs,
    and last the info entry that reports the empty event.  When its
    timestamp is a numeric string, the handler raises the [TypeError] of
    [parse_datetime] instead, and the empty event is never reported: the
    log has gained the two entries of the payload and no other. *)
Theorem handle_event_data_empty tenant message env meta (dev : pyval)
  (w : world) :
  json_loads message = Ret (VDict env) ->
  dict_lookup "metadata" env = Some (VDict meta) ->
  dict_lookup "deviceid" meta = Some dev ->
  dev <> VNone ->
  dict_lookup "attrs" env = Some (VDict []) ->
  dict_get "status" meta VNone = VNone ->
  (forall ts : datetime,
     fst (parse_datetime (dict_get "timestamp" meta VNone) w) = Ret ts ->
     db_calls (trace (snd (handle_event_data tenant message w))) = db_calls (trace w)
     /\ db (snd (handle_event_data tenant message w)) = db w
     /\ handle_event_data tenant message w =
        (Ret tt,
         emit (Log INFO ("Got empty event from device [" ++ py_str dev ++ "] - ignoring"))
           (snd (parse_datetime (dict_get "timestamp" meta VNone)
                   (emit (Log DEBUG ("got data event " ++ message))
                      (emit (Log INFO ("THIS IS THE DATA: " ++ py_str (VDict env))) w))))))
  /\ (forall (s : string) (z : Z),
        dict_lookup "timestamp" meta = Some (VStr s) ->
        int_of_str s = Some z ->
        handle_event_data tenant message w =
        (Raise (unorderable (VStr s)),
         emit (Log DEBUG ("got data event " ++ message))
           (emit (Log INFO ("THIS IS THE DATA: " ++ py_str (VDict env))) w))).
Proof.
  intros Hjson Hmeta Hdev Hnone Hattrs Hstatus. split.
  - intros ts Hts.
    assert (Ha : dict_get "attrs" env (VDict []) = VDict [])
      by (unfold dict_get; now rewrite Hattrs).
    set (w2 := emit (Log DEBUG ("got data event " ++ message))
                 (emit (Log INFO ("THIS IS THE DATA: " ++ py_str (VDict env))) w)).
    assert (H02 : log_only w w2)
      by (eapply log_only_trans; apply log_only_emit).
    pose proof (parse_datetime_quiet (dict_get "timestamp" meta VNone) w2) as H23.
    pose proof (parse_datetime_stable (dict_get "timestamp" meta VNone) H02) as Hst.
    rewrite Hts in Hst.
    assert (Hrun : handle_event_data tenant message w =
                   (Ret tt,
                    emit (Log INFO ("Got empty event from device [" ++ py_str dev
                                      ++ "] - ignoring"))
                      (snd (parse_datetime (dict_get "timestamp" meta VNone) w2)))).
    { rewrite (handle_event_data_to_timestamp tenant message w Hjson Hmeta Hdev Hnone).
      fold w2. unfold bind at 1.
      destruct (parse_datetime (dict_get "timestamp" meta VNone) w2) as [o w3].
      cbn [fst snd] in Hst |- *. subst o.
      unfold after_timestamp.
      unfold bind at 1, lift at 1, py_get at 1. rewrite Ha.
      unfold bind, lift, py_keys, py_get, ret. cbn [dict_keys map for_each fst snd].
      rewrite Hstatus. reflexivity. }
    pose proof (log_only_trans H02 H23) as H03.
    rewrite Hrun. split; [| split].
    + cbn [snd emit trace]. rewrite db_calls_log. now apply log_only_db_calls.
    + cbn [snd emit db]. apply H03.
    + reflexivity.
  - intros s z Hs Hz.
    exact (handle_event_data_numeric_string tenant message w
             Hjson Hmeta Hdev Hnone Hs Hz).
Qed.

(** C9.  Where the handler does what the claim says, and where it does not.
    The envelope has metadata and a device, and no [attrs] key.  When its
    timestamp normalises (the call of [parse_datetime] returns), it is
    handled as one with no attributes: the handler returns, and the batch
    holds no attribute document; it is the single status document when the
    metadata has a status, and empty (nothing is written) when it has none.
    When its timestamp is a numeric string, the handler raises the
    [TypeError] of [parse_datetime] instead, and writes no status
    document. *)
Theorem handle_event_data_attrs_absent tenant message env meta (dev : pyval)
  (w : world) :
  json_loads message = Ret (VDict env) ->
  dict_lookup "metadata" env = Some (VDict meta) ->
  dict_lookup "deviceid" meta = Some dev ->
  dev <> VNone ->
  dict_lookup "attrs" env = None ->
  (forall ts : datetime,
     fst (parse_datetime (dict_get "timestamp" meta VNone) w) = Ret ts ->
     fst (handle_event_data tenant message w) = Ret tt
     /\ (forall st status,
           db w = Some st ->
           dict_lookup "status" meta = Some status ->
           status <> VNone ->
           db_calls (trace (snd (handle_event_data tenant message w))) =
           (db_calls (trace w)
              ++ [InsertMany (collection_name_of tenant dev)
                    [StatusDoc status dev ts]])%list)
     /\ (dict_get "status" meta VNone = VNone ->
         db_calls (trace (snd (handle_event_data tenant message w))) =
         db_calls (trace w)))
  /\ (forall (s : string) (z : Z),
        dict_lookup "timestamp" meta = Some (VStr s) ->
        int_of_str s = Some z ->
        handle_event_data tenant message w =
        (Raise (unorderable (VStr s)),
         emit (Log DEBUG ("got data event " ++ message))
           (emit (Log INFO ("THIS IS THE DATA: " ++ py_str (VDict env))) w))).
Proof.
  intros Hjson Hmeta Hdev Hnone Hattrs. split.
  - intros ts Hts.
    assert (Ha : dict_get "attrs" env (VDict []) = VDict [])
      by (unfold dict_get; now rewrite Hattrs).
    destruct (handle_event_data_run tenant message w Hjson Hmeta Hdev Hnone Hts Ha)
      as (w1 & Hlog & Hrun).
    rewrite Hrun. cbn [attribute_documents dict_keys map app].
    split; [apply persist_returns | split].
    + intros st status Hdb Hstatus Hsome.
      destruct Hlog as (Hdb1 & _ & logs & Ht & Hlogs).
      erewrite persist_db_calls by (rewrite Hdb1; exact Hdb).
      unfold dict_get. rewrite Hstatus. unfold status_documents.
      rewrite (is_None_false Hsome). cbn [batch_calls].
      now rewrite Ht, db_calls_app, Hlogs, app_nil_r.
    + intros Hstatus. rewrite Hstatus. cbn [status_documents is_None].
      rewrite persist_empty. simpl. rewrite db_calls_log.
      now apply log_only_db_calls.
  - intros s z Hs Hz.
    exact (handle_event_data_numeric_string tenant message w
             Hjson Hmeta Hdev Hnone Hs Hz).
Qed.

(** C10.  Two envelopes that differ only in [metadata.tenant], handled for
    the same [tenant] argument from the same world, end alike: same outcome,
    same store, same store calls with the same documents.  Whatever is
    written goes into the collection named from the [tenant] argument and
    [metadata.deviceid]. *)
Theorem handle_event_data_ignores_metadata_tenant tenant message1 message2
  env1 env2 meta1 meta2 (w : world) :
  json_loads message1 = Ret (VDict env1) ->
  json_loads message2 = Ret (VDict env2) ->
  (forall k, k <> "metadata" -> dict_lookup k env1 = dict_lookup k env2) ->
  dict_lookup "metadata" env1 = Some (VDict meta1) ->
  dict_lookup "metadata" env2 = Some (VDict meta2) ->
  (forall k, k <> "tenant" -> dict_lookup k meta1 = dict_lookup k meta2) ->
  fst (handle_event_data tenant message1 w) = fst (handle_event_data tenant message2 w)
  /\ db (snd (handle_event_data tenant message1 w)) =
     db (snd (handle_event_data tenant message2 w))
  /\ db_calls (trace (snd (handle_event_data tenant message1 w))) =
     db_calls (trace (snd (handle_event_data tenant message2 w)))
  /\ writes_into (collection_name_of tenant (dict_get "deviceid" meta1 VNone))
       w (snd (handle_event_data tenant message1 w)).
Proof.
  intros Hj1 Hj2 Henv Hm1 Hm2 Hmeta.
  unfold handle_event_data.
  erewrite !bind_Ret by (apply decode_event_Ret; eassumption).
  assert (Hrel : related (handle_decoded tenant message1 (VDict env1))
                   (handle_decoded tenant message2 (VDict env2))).
  { apply (handle_decoded_related tenant message1 message2 env1 env2 Hm1 Hm2).
    - apply Henv. discriminate.
    - apply Hmeta. discriminate.
    - apply Hmeta. discriminate.
    - apply Hmeta. discriminate. }
  match goal with
  | |- fst (_ ?w1) = fst (_ ?w2) /\ _ =>
      assert (Hsim : sim w1 w2)
        by (eapply sim_trans;
            [apply sim_sym, log_only_sim, log_only_emit
            | apply log_only_sim, log_only_emit]);
      destruct (Hrel w1 w2 Hsim) as (Hfst & Hdb & _ & Hcalls)
  end.
  split; [exact Hfst | split; [exact Hdb | split; [exact Hcalls |]]].
  eapply writes_into_trans.
  - apply log_only_writes_into, log_only_emit.
  - apply (handle_decoded_writes_into tenant message1 env1 Hm1).
Qed.

End TelemetryClaims.

(** ** Claims on [handle_event_devices] and index provisioning *)

Section LifecycleClaims.
Context {RT : Runtime}.

Lemma py_getitem_dict (d : list (string * pyval)) k v :
  dict_lookup k d = Some v -> py_getitem (VDict d) k = Ret v.
Proof. intros H. unfold py_getitem. now rewrite H. Qed.

(** [create_indexes] asks for the descending index, then, if that call
    returned, for the expiring one; an error of either call is its own. *)
Lemma create_indexes_run coll (st : store) (w : world) :
  db w = Some st ->
  create_indexes coll w =
  match create_index st coll ts_descending with
  | (Ret _, st1) =>
      (fst (create_index st1 coll ts_expire),
       mk_world (Some (snd (create_index st1 coll ts_expire))) (clk w)
         (trace w ++ [CreateIndex coll ts_descending; CreateIndex coll ts_expire]))
  | (Raise e, st1) =>
      (Raise e, mk_world (Some st1) (clk w) (trace w ++ [CreateIndex coll ts_descending]))
  end.
Proof.
  intros Hdb. unfold create_indexes, bind, db_create_index. rewrite Hdb.
  destruct (create_index st coll ts_descending) as [[[] | e] st1]; simpl; [| reflexivity].
  destruct (create_index st1 coll ts_expire) as [r st2]. simpl.
  now rewrite <- app_assoc.
Qed.

(** The sibling path: at start-up an error of index provisioning, like any
    other, is logged as a warning and swallowed. *)
Lemma init_mongodb_swallows c s (st st' : store) (e : exn) (w : world) :
  MongoClient = Ret st ->
  create_index st (String c s) ts_descending = (Raise e, st') ->
  init_mongodb (Some (String c s)) w =
  (Ret tt,
   mk_world (Some st') (clk w)
     (trace w ++ [CreateIndex (String c s) ts_descending;
                  Log WARN ("Could not init mongo db client: " ++ exn_msg e)])).
Proof.
  intros Hc He.
  unfold init_mongodb, try_except, bind, lift, set_db. rewrite Hc.
  rewrite (create_indexes_run (String c s) (st := st)) by reflexivity.
  rewrite He. unfold log, emit. cbn [fst snd db clk trace isinstance].
  now rewrite <- app_assoc.
Qed.

(** C2.  The lifecycle handler does not contain an error of index
    provisioning: when the first [create_index] raises, the same exception
    leaves [handle_event_devices], after the call and with no warning
    logged. *)
Theorem handle_event_devices_provisioning_error_escapes tenant message env ev
  meta dat (svc dev : pyval) (st st' : store) (e : exn) (w : world) :
  json_loads message = Ret (VDict env) ->
  dict_lookup "event" env = Some ev ->
  ne_str ev "configure" = true ->
  dict_lookup "meta" env = Some (VDict meta) ->
  dict_lookup "service" meta = Some svc ->
  dict_lookup "data" env = Some (VDict dat) ->
  dict_lookup "id" dat = Some dev ->
  db w = Some st ->
  create_index st (py_str svc ++ "_" ++ py_str dev) ts_descending = (Raise e, st') ->
  handle_event_devices tenant message w =
  (Raise e,
   mk_world (Some st') (clk w)
     (trace w ++ [Log INFO ("got device event " ++ py_str (VDict env));
                  CreateIndex (py_str svc ++ "_" ++ py_str dev) ts_descending])).
Proof.
  intros Hjson Hev Hne Hmeta Hsvc Hdat Hdev Hdb Hraise.
  unfold handle_event_devices.
  unfold bind at 1, lift at 1. rewrite Hjson.
  unfold bind at 1, log at 1.
  unfold bind at 1, lift at 1. rewrite (py_getitem_dict _ _ Hev), Hne.
  unfold bind at 1, lift at 1. rewrite (py_getitem_dict _ _ Hmeta).
  unfold bind at 1, lift at 1. rewrite (py_getitem_dict _ _ Hsvc).
  unfold bind at 1, lift at 1. rewrite (py_getitem_dict _ _ Hdat).
  unfold bind at 1, lift at 1. rewrite (py_getitem_dict _ _ Hdev).
  rewrite (create_indexes_run _ (st := st)) by exact Hdb.
  rewrite Hraise. unfold emit. cbn [fst snd db clk trace].
  now rewrite <- app_assoc.
Qed.

(** C5.  A payload that is not JSON is not contained by the lifecycle
    handler: the decoder's exception leaves [handle_event_devices], and
    nothing is logged. *)
Theorem handle_event_devices_malformed_raises tenant message (e : exn) (w : world) :
  json_loads message = Raise e ->
  handle_event_devices tenant message w = (Raise e, w).
Proof.
  intros H. unfold handle_event_devices, bind, lift. now rewrite H.
Qed.

(** C6.  On a lifecycle event other than ["configure"], with the store
    handle in place, the only store calls are [create_index] calls on the
    collection [meta.service ++ "_" ++ data.id]: the descending index and,
    unless that call raised, the expiring one.  [insert_many] is not
    called. *)
Theorem handle_event_devices_provisions tenant message env ev meta dat
  (svc dev : pyval) (st : store) (w : world) :
  json_loads message = Ret (VDict env) ->
  dict_lookup "event" env = Some ev ->
  ne_str ev "configure" = true ->
  dict_lookup "meta" env = Some (VDict meta) ->
  dict_lookup "service" meta = Some svc ->
  dict_lookup "data" env = Some (VDict dat) ->
  dict_lookup "id" dat = Some dev ->
  db w = Some st ->
  db_calls (trace (snd (handle_event_devices tenant message w))) =
  (db_calls (trace w)
     ++ CreateIndex (py_str svc ++ "_" ++ py_str dev) ts_descending
        :: match fst (create_index st (py_str svc ++ "_" ++ py_str dev) ts_descending) with
           | Ret _ => [CreateIndex (py_str svc ++ "_" ++ py_str dev) ts_expire]
           | Raise _ => []
           end)%list.
Proof.
  intros Hjson Hev Hne Hmeta Hsvc Hdat Hdev Hdb.
  unfold handle_event_devices.
  unfold bind at 1, lift at 1. rewrite Hjson.
  unfold bind at 1, log at 1.
  unfold bind at 1, lift at 1. rewrite (py_getitem_dict _ _ Hev), Hne.
  unfold bind at 1, lift at 1. rewrite (py_getitem_dict _ _ Hmeta).
  unfold bind at 1, lift at 1. rewrite (py_getitem_dict _ _ Hsvc).
  unfold bind at 1, lift at 1. rewrite (py_getitem_dict _ _ Hdat).
  unfold bind at 1, lift at 1. rewrite (py_getitem_dict _ _ Hdev).
  rewrite (create_indexes_run _ (st := st)) by exact Hdb.
  destruct (create_index st _ ts_descending) as [[[] | e] st1];
    unfold emit; cbn [fst snd db clk trace];
    rewrite db_calls_app, db_calls_log; reflexivity.
Qed.

(** The reshaping: [data.attrs] to [attrs], [data.id] to
    [metadata.deviceid], [meta.service] to [metadata.tenant], the clock in
    milliseconds to [metadata.timestamp]; the envelope is logged and returned
    serialised. *)
Lemma parse_message_run env dat meta (attrs dev svc : pyval) (w : world) :
  dict_lookup "data" env = Some (VDict dat) ->
  dict_lookup "attrs" dat = Some attrs ->
  dict_lookup "id" dat = Some dev ->
  dict_lookup "meta" env = Some (VDict meta) ->
  dict_lookup "service" meta = Some svc ->
  parse_message (VDict env) w =
  (Ret (json_dumps (parsed_message attrs (time_ms (clk w)) dev svc)),
   emit (Log INFO ("new message is: "
                     ++ py_str (parsed_message attrs (time_ms (clk w)) dev svc))) w).
Proof.
  intros Hdat Hattrs Hdev Hmeta Hsvc.
  unfold parse_message, bind, lift, read_clock, log, ret.
  rewrite (py_getitem_dict _ _ Hdat), (py_getitem_dict _ _ Hattrs),
    (py_getitem_dict _ _ Hdev), (py_getitem_dict _ _ Hmeta),
    (py_getitem_dict _ _ Hsvc).
  reflexivity.
Qed.

(** C3.  What the configure path does.  A ["configure"] event is reshaped
    by [parse_message] into the telemetry envelope
    [parsed_message data.attrs now data.id meta.service], serialised, and
    handled as telemetry: with the clock reading [now] above [2^31 - 1]
    milliseconds, the handler returns and writes one attribute document per
    key of [data.attrs], each with the device [data.id] and the instant
    [now] milliseconds, by one [insert_many] into
    [collection_name_of tenant data.id], named from the handler's [tenant]
    argument.  That is the collection [meta.service ++ "_" ++ data.id], the
    one the other branch of the handler provisions, when the handler is
    called for the tenant the envelope names; called for another tenant, the
    documents go where no index was provisioned. *)
Theorem handle_event_devices_configure tenant message env dat meta attrs
  (dev svc : pyval) (q : float) (ts : datetime) (st : store) (w : world) :
  json_loads message = Ret (VDict env) ->
  dict_lookup "event" env = Some (VStr "configure") ->
  dict_lookup "data" env = Some (VDict dat) ->
  dict_lookup "attrs" dat = Some (VDict attrs) ->
  dict_lookup "id" dat = Some dev ->
  dev <> VNone ->
  dict_lookup "meta" env = Some (VDict meta) ->
  dict_lookup "service" meta = Some svc ->
  json_loads (json_dumps (parsed_message (VDict attrs) (time_ms (clk w)) dev svc)) =
    Ret (parsed_message (VDict attrs) (time_ms (clk w)) dev svc) ->
  max_seconds < time_ms (clk w) ->
  int_truediv (time_ms (clk w)) 1000 = Some q ->
  utcfromtimestamp q = Ret ts ->
  db w = Some st ->
  fst (parse_message (VDict env) w) =
    Ret (json_dumps (parsed_message (VDict attrs) (time_ms (clk w)) dev svc))
  /\ fst (handle_event_devices tenant message w) = Ret tt
  /\ db_calls (trace (snd (handle_event_devices tenant message w))) =
     (db_calls (trace w)
        ++ batch_calls (collection_name_of tenant dev)
             (attribute_documents attrs dev ts))%list.
Proof.
  intros Hjson Hev Hdat Hattrs Hdev Hnone Hmeta Hsvc Hround Hnow Hq Hts Hdb.
  pose proof (parse_message_run env w Hdat Hattrs Hdev Hmeta Hsvc) as Hpm.
  split; [now rewrite Hpm |].
  assert (Hrun : exists w3,
             log_only w w3 /\
             handle_event_devices tenant message w =
             persist tenant dev (attribute_documents attrs dev ts) w3).
  { unfold handle_event_devices.
    unfold bind at 1, lift at 1. rewrite Hjson.
    unfold bind at 1, log at 1.
    set (w1 := emit _ w).
    unfold bind at 1, lift at 1. rewrite (py_getitem_dict _ _ Hev).
    cbn [ne_str String.eqb Ascii.eqb Bool.eqb negb].
    assert (H01 : log_only w w1) by apply log_only_emit.
    erewrite bind_Ret
      by (apply (parse_message_run env w1 Hdat Hattrs Hdev Hmeta Hsvc)).
    set (w2 := emit _ w1).
    assert (H02 : log_only w w2)
      by (eapply log_only_trans; [exact H01 | apply log_only_emit]).
    change (clk w1) with (clk w).
    destruct (handle_event_data_run tenant
                (json_dumps (parsed_message (VDict attrs) (time_ms (clk w)) dev svc))
                (env := [("attrs", VDict attrs);
                         ("metadata", VDict [("timestamp", VInt (time_ms (clk w)));
                                             ("deviceid", dev); ("tenant", svc)])])
                (meta := [("timestamp", VInt (time_ms (clk w)));
                          ("deviceid", dev); ("tenant", svc)])
                (dev := dev) (ts := ts) (attrs := attrs) w2)
      as (w3 & H23 & Hrun); try reflexivity; try assumption.
    - cbn [dict_get dict_lookup String.eqb Ascii.eqb Bool.eqb].
      now rewrite (parse_datetime_int_millis w2 Hnow Hq Hts).
    - exists w3. split; [exact (log_only_trans H02 H23) |].
      rewrite Hrun. cbn [status_documents dict_get dict_lookup String.eqb Ascii.eqb
                           Bool.eqb is_None]. now rewrite app_nil_r. }
  destruct Hrun as (w3 & (Hdb3 & _ & logs & Ht & Hlogs) & Hrun). rewrite Hrun.
  split; [apply persist_returns |].
  erewrite persist_db_calls by (rewrite Hdb3; exact Hdb).
  now rewrite Ht, db_calls_app, Hlogs, app_nil_r.
Qed.

End LifecycleClaims.

(** ** The claims on the reference runtime *)

(** C2 at the event [create_event] with the store unreachable: the store's
    error leaves the handler. *)
Lemma handle_event_devices_provisioning_error_escapes_witness :
  handle_event_devices (RT := Reference.runtime) "tenantA" Reference.create_event
    Reference.w_offline =
  (Raise Reference.unreachable,
   mk_world (RT := Reference.runtime) (Some Reference.offline_store) Reference.now_us
     [Log INFO "got device event {'event': 'create', 'meta': {'service': 'tenantA'}, 'data': {'id': 'dev1'}}";
      CreateIndex "tenantA_dev1" ts_descending]).
Proof.
  apply (handle_event_devices_provisioning_error_escapes (RT := Reference.runtime)
           "tenantA" Reference.create_event
           (env := [("event", VStr "create");
                    ("meta", VDict [("service", VStr "tenantA")]);
                    ("data", VDict [("id", VStr "dev1")])])
           (ev := VStr "create")
           (meta := [("service", VStr "tenantA")])
           (dat := [("id", VStr "dev1")])
           (svc := VStr "tenantA") (dev := VStr "dev1")
           (st := Reference.offline_store) (st' := Reference.offline_store)
           (e := Reference.unreachable) Reference.w_offline);
    reflexivity.
Defined.

(** C5 at the payload [malformed_event]: the decoder's error leaves the
    lifecycle handler and nothing is logged. *)
Lemma handle_event_devices_malformed_raises_witness :
  handle_event_devices (RT := Reference.runtime) "tenantA" Reference.malformed_event
    Reference.w0 =
  (Raise (mk_exn JSONDecodeError "Expecting value"), Reference.w0).
Proof.
  apply (handle_event_devices_malformed_raises (RT := Reference.runtime)
           "tenantA" Reference.malformed_event
           (e := mk_exn JSONDecodeError "Expecting value") Reference.w0).
  reflexivity.
Defined.

(** C6 at the event [create_event]: both indexes are asked for on
    ["tenantA_dev1"], and nothing else is asked of the store. *)
Lemma handle_event_devices_provisions_witness :
  db_calls
    (trace (snd (handle_event_devices (RT := Reference.runtime) "tenantA"
                   Reference.create_event Reference.w0))) =
  [CreateIndex "tenantA_dev1" ts_descending;
   CreateIndex "tenantA_dev1" (ts_expire (RT := Reference.runtime))].
Proof.
  apply (handle_event_devices_provisions (RT := Reference.runtime)
           "tenantA" Reference.create_event
           (env := [("event", VStr "create");
                    ("meta", VDict [("service", VStr "tenantA")]);
                    ("data", VDict [("id", VStr "dev1")])])
           (ev := VStr "create")
           (meta := [("service", VStr "tenantA")])
           (dat := [("id", VStr "dev1")])
           (svc := VStr "tenantA") (dev := VStr "dev1")
           (st := Reference.empty_store) Reference.w0);
    reflexivity.
Defined.

(** C3 at the event [configure_event] at [now_us].  Handled for tenant
    ["tenantA"], the tenant the envelope names: the reshaped envelope, and
    the one document written into ["tenantA_dev1"].  Handled for tenant
    ["tenantB"]: the same envelope, and the document written into
    ["tenantB_dev1"]. *)
Lemma handle_event_devices_configure_witness :
  (fst (parse_message (RT := Reference.runtime)
          (VDict [("event", VStr "configure");
                  ("meta", VDict [("service", VStr "tenantA")]);
                  ("data", VDict [("id", VStr "dev1");
                                  ("attrs", VDict [("fw", VStr "1.2")])])])
          Reference.w0) =
     Ret (Reference.js "{'attrs': {'fw': '1.2'}, 'metadata': {'timestamp': 1790000000123, 'deviceid': 'dev1', 'tenant': 'tenantA'}}")
   /\ fst (handle_event_devices (RT := Reference.runtime) "tenantA"
             Reference.configure_event Reference.w0) = Ret tt
   /\ db_calls
        (trace (snd (handle_event_devices (RT := Reference.runtime) "tenantA"
                       Reference.configure_event Reference.w0))) =
      [InsertMany "tenantA_dev1"
         [AttrDoc "fw" (VStr "1.2") (VStr "dev1") 1790000000123000]])
  /\ fst (handle_event_devices (RT := Reference.runtime) "tenantB"
            Reference.configure_event Reference.w0) = Ret tt
  /\ db_calls
       (trace (snd (handle_event_devices (RT := Reference.runtime) "tenantB"
                      Reference.configure_event Reference.w0))) =
     [InsertMany "tenantB_dev1"
        [AttrDoc "fw" (VStr "1.2") (VStr "dev1") 1790000000123000]].
Proof.
  split.
  - apply (handle_event_devices_configure (RT := Reference.runtime)
             "tenantA" Reference.configure_event
             (env := [("event", VStr "configure");
                      ("meta", VDict [("service", VStr "tenantA")]);
                      ("data", VDict [("id", VStr "dev1");
                                      ("attrs", VDict [("fw", VStr "1.2")])])])
             (dat := [("id", VStr "dev1"); ("attrs", VDict [("fw", VStr "1.2")])])
             (meta := [("service", VStr "tenantA")])
             (attrs := [("fw", VStr "1.2")])
             (dev := VStr "dev1") (svc := VStr "tenantA")
             (q := Reference.mk_dec 1790000000123000 6)
             (ts := 1790000000123000)
             (st := Reference.empty_store) Reference.w0);
      try reflexivity; discriminate.
  - apply (handle_event_devices_configure (RT := Reference.runtime)
             "tenantB" Reference.configure_event
             (env := [("event", VStr "configure");
                      ("meta", VDict [("service", VStr "tenantA")]);
                      ("data", VDict [("id", VStr "dev1");
                                      ("attrs", VDict [("fw", VStr "1.2")])])])
             (dat := [("id", VStr "dev1"); ("attrs", VDict [("fw", VStr "1.2")])])
             (meta := [("service", VStr "tenantA")])
             (attrs := [("fw", VStr "1.2")])
             (dev := VStr "dev1") (svc := VStr "tenantA")
             (q := Reference.mk_dec 1790000000123000 6)
             (ts := 1790000000123000)
             (st := Reference.empty_store) Reference.w0);
      try reflexivity; discriminate.
Defined.

(** The two branches of the lifecycle handler, called for tenant
    ["tenantB"] on envelopes of ["tenantA"]: the create event provisions the
    indexes of ["tenantA_dev1"], and the configure event that follows writes
    its document into ["tenantB_dev1"]. *)
Lemma handle_event_devices_branches_disagree :
  db_calls
    (trace (snd (handle_event_devices (RT := Reference.runtime) "tenantB"
                   Reference.configure_event
                   (snd (handle_event_devices (RT := Reference.runtime) "tenantB"
                           Reference.create_event Reference.w0))))) =
  [CreateIndex "tenantA_dev1" ts_descending;
   CreateIndex "tenantA_dev1" (ts_expire (RT := Reference.runtime));
   InsertMany "tenantB_dev1"
     [AttrDoc "fw" (VStr "1.2") (VStr "dev1") 1790000000123000]].
Proof. vm_compute. reflexivity. Qed.

(** C7 at the event [telemetry_event]: two attribute documents, both
    stamped 2017-07-14T02:40:00Z, in one batch; and at the event
    [telemetry_string_timestamp], the same envelope with the timestamp as a
    string: the handler raises and leaves the two entries of the payload. *)
Lemma handle_event_data_attribute_documents_witness :
  (db_calls
     (trace (snd (handle_event_data (RT := Reference.runtime) "tenantA"
                    Reference.telemetry_event Reference.w0))) =
     [InsertMany "tenantA_dev1"
        [AttrDoc "temp" (VInt 10) (VStr "dev1") 1500000000000000;
         AttrDoc "hum" (VInt 50) (VStr "dev1") 1500000000000000]]
   /\ List.length
        (filter is_attr_doc
           (attribute_documents (RT := Reference.runtime)
              [("temp", VInt 10); ("hum", VInt 50)] (VStr "dev1") 1500000000000000)) =
      2%nat
   /\ filter is_status_doc
        (attribute_documents (RT := Reference.runtime)
           [("temp", VInt 10); ("hum", VInt 50)] (VStr "dev1") 1500000000000000) = []
   /\ Forall (fun d => doc_ts d = 1500000000000000)
        (attribute_documents (RT := Reference.runtime)
           [("temp", VInt 10); ("hum", VInt 50)] (VStr "dev1") 1500000000000000))
  /\ handle_event_data (RT := Reference.runtime) "tenantA"
       Cases.telemetry_string_timestamp Reference.w0 =
     (Raise (mk_exn TypeError "'>' not supported between instances of 'str' and 'int'"),
      mk_world (RT := Reference.runtime) (Some Reference.empty_store) Reference.now_us
        [Log INFO "THIS IS THE DATA: {'metadata': {'deviceid': 'dev1', 'tenant': 'tenantA', 'timestamp': '1500000000'}, 'attrs': {'temp': 10, 'hum': 50}}";
         Log DEBUG ("got data event " ++ Cases.telemetry_string_timestamp)]).
Proof.
  split.
  - apply (proj1 (handle_event_data_attribute_documents (RT := Reference.runtime)
                    "tenantA" Reference.telemetry_event
                    (env := [("metadata", VDict [("deviceid", VStr "dev1");
                                                 ("tenant", VStr "tenantA");
                                                 ("timestamp", VInt 1500000000)]);
                             ("attrs", VDict [("temp", VInt 10); ("hum", VInt 50)])])
                    (meta := [("deviceid", VStr "dev1"); ("tenant", VStr "tenantA");
                              ("timestamp", VInt 1500000000)])
                    (dev := VStr "dev1")
                    (attrs := [("temp", VInt 10); ("hum", VInt 50)])
                    Reference.w0
                    eq_refl eq_refl eq_refl ltac:(discriminate) eq_refl eq_refl)
             1500000000000000 Reference.empty_store);
      reflexivity.
  - apply (proj2 (handle_event_data_attribute_documents (RT := Reference.runtime)
                    "tenantA" Cases.telemetry_string_timestamp
                    (env := [("metadata", VDict [("deviceid", VStr "dev1");
                                                 ("tenant", VStr "tenantA");
                                                 ("timestamp", VStr "1500000000")]);
                             ("attrs", VDict [("temp", VInt 10); ("hum", VInt 50)])])
                    (meta := [("deviceid", VStr "dev1"); ("tenant", VStr "tenantA");
                              ("timestamp", VStr "1500000000")])
                    (dev := VStr "dev1")
                    (attrs := [("temp", VInt 10); ("hum", VInt 50)])
                    Reference.w0
                    eq_refl eq_refl eq_refl ltac:(discriminate) eq_refl eq_refl)
             "1500000000" 1500000000);
      reflexivity.
Defined.

(** C8 at the event [empty_event]: no store call, the store untouched, and
    the three entries of the run; and at the event [empty_string_timestamp],
    the same envelope with the timestamp as a string: the handler raises,
    and the log has no entry for the empty event. *)
Lemma handle_event_data_empty_witness :
  (db_calls
     (trace (snd (handle_event_data (RT := Reference.runtime) "tenantA"
                    Reference.empty_event Reference.w0))) = []
   /\ db (snd (handle_event_data (RT := Reference.runtime) "tenantA"
                 Reference.empty_event Reference.w0)) = Some Reference.empty_store
   /\ handle_event_data (RT := Reference.runtime) "tenantA" Reference.empty_event
        Reference.w0 =
      (Ret tt,
       mk_world (RT := Reference.runtime) (Some Reference.empty_store) Reference.now_us
         [Log INFO "THIS IS THE DATA: {'metadata': {'deviceid': 'dev1', 'tenant': 'tenantA', 'timestamp': 1500000000}, 'attrs': {}}";
          Log DEBUG ("got data event " ++ Reference.empty_event);
          Log INFO "Got empty event from device [dev1] - ignoring"]))
  /\ handle_event_data (RT := Reference.runtime) "tenantA"
       Cases.empty_string_timestamp Reference.w0 =
     (Raise (mk_exn TypeError "'>' not supported between instances of 'str' and 'int'"),
      mk_world (RT := Reference.runtime) (Some Reference.empty_store) Reference.now_us
        [Log INFO "THIS IS THE DATA: {'metadata': {'deviceid': 'dev1', 'tenant': 'tenantA', 'timestamp': '1500000000'}, 'attrs': {}}";
         Log DEBUG ("got data event " ++ Cases.empty_string_timestamp)]).
Proof.
  split.
  - apply (proj1 (handle_event_data_empty (RT := Reference.runtime)
                    "tenantA" Reference.empty_event
                    (env := [("metadata", VDict [("deviceid", VStr "dev1");
                                                 ("tenant", VStr "tenantA");
                                                 ("timestamp", VInt 1500000000)]);
                             ("attrs", VDict [])])
                    (meta := [("deviceid", VStr "dev1"); ("tenant", VStr "tenantA");
                              ("timestamp", VInt 1500000000)])
                    (dev := VStr "dev1") Reference.w0
                    eq_refl eq_refl eq_refl ltac:(discriminate) eq_refl eq_refl)
             1500000000000000);
      reflexivity.
  - apply (proj2 (handle_event_data_empty (RT := Reference.runtime)
                    "tenantA" Cases.empty_string_timestamp
                    (env := [("metadata", VDict [("deviceid", VStr "dev1");
                                                 ("tenant", VStr "tenantA");
                                                 ("timestamp", VStr "1500000000")]);
                             ("attrs", VDict [])])
                    (meta := [("deviceid", VStr "dev1"); ("tenant", VStr "tenantA");
                              ("timestamp", VStr "1500000000")])
                    (dev := VStr "dev1") Reference.w0
                    eq_refl eq_refl eq_refl ltac:(discriminate) eq_refl eq_refl)
             "1500000000" 1500000000);
      reflexivity.
Defined.

(** C9 at the event [status_event], which has no [attrs] key: the handler
    returns and the batch is the one status document; and at the event
    [status_string_timestamp], the same envelope with the timestamp as a
    string: the handler raises and nothing is written. *)
Lemma handle_event_data_attrs_absent_witness :
  (fst (handle_event_data (RT := Reference.runtime) "tenantA" Reference.status_event
          Reference.w0) = Ret tt
   /\ db_calls
        (trace (snd (handle_event_data (RT := Reference.runtime) "tenantA"
                       Reference.status_event Reference.w0))) =
      [InsertMany "tenantA_dev1"
         [StatusDoc (VStr "online") (VStr "dev1") 1500000000000000]])
  /\ handle_event_data (RT := Reference.runtime) "tenantA"
       Cases.status_string_timestamp Reference.w0 =
     (Raise (mk_exn TypeError "'>' not supported between instances of 'str' and 'int'"),
      mk_world (RT := Reference.runtime) (Some Reference.empty_store) Reference.now_us
        [Log INFO "THIS IS THE DATA: {'metadata': {'deviceid': 'dev1', 'tenant': 'tenantA', 'timestamp': '1500000000', 'status': 'online'}}";
         Log DEBUG ("got data event " ++ Cases.status_string_timestamp)]).
Proof.
  split.
  - destruct (proj1 (handle_event_data_attrs_absent (RT := Reference.runtime)
                       "tenantA" Reference.status_event
                       (env := [("metadata", VDict [("deviceid", VStr "dev1");
                                                    ("tenant", VStr "tenantA");
                                                    ("timestamp", VInt 1500000000);
                                                    ("status", VStr "online")])])
                       (meta := [("deviceid", VStr "dev1"); ("tenant", VStr "tenantA");
                                 ("timestamp", VInt 1500000000);
                                 ("status", VStr "online")])
                       (dev := VStr "dev1") Reference.w0
                       eq_refl eq_refl eq_refl ltac:(discriminate) eq_refl)
                1500000000000000 eq_refl)
      as (Hret & Hstatus & _).
    split; [exact Hret |].
    apply (Hstatus Reference.empty_store (VStr "online")); try reflexivity; discriminate.
  - apply (proj2 (handle_event_data_attrs_absent (RT := Reference.runtime)
                    "tenantA" Cases.status_string_timestamp
                    (env := [("metadata", VDict [("deviceid", VStr "dev1");
                                                 ("tenant", VStr "tenantA");
                                                 ("timestamp", VStr "1500000000");
                                                 ("status", VStr "online")])])
                    (meta := [("deviceid", VStr "dev1"); ("tenant", VStr "tenantA");
                              ("timestamp", VStr "1500000000");
                              ("status", VStr "online")])
                    (dev := VStr "dev1") Reference.w0
                    eq_refl eq_refl eq_refl ltac:(discriminate) eq_refl)
             "1500000000" 1500000000);
      reflexivity.
Defined.

(** C10 at the events [telemetry_event] and [telemetry_event_other_tenant],
    both handled for tenant ["tenantA"]. *)
Lemma handle_event_data_ignores_metadata_tenant_witness :
  fst (handle_event_data (RT := Reference.runtime) "tenantA" Reference.telemetry_event
         Reference.w0) =
  fst (handle_event_data (RT := Reference.runtime) "tenantA"
         Reference.telemetry_event_other_tenant Reference.w0)
  /\ db (snd (handle_event_data (RT := Reference.runtime) "tenantA"
                Reference.telemetry_event Reference.w0)) =
     db (snd (handle_event_data (RT := Reference.runtime) "tenantA"
                Reference.telemetry_event_other_tenant Reference.w0))
  /\ db_calls
       (trace (snd (handle_event_data (RT := Reference.runtime) "tenantA"
                      Reference.telemetry_event Reference.w0))) =
     db_calls
       (trace (snd (handle_event_data (RT := Reference.runtime) "tenantA"
                      Reference.telemetry_event_other_tenant Reference.w0)))
  /\ writes_into (RT := Reference.runtime) "tenantA_dev1" Reference.w0
       (snd (handle_event_data (RT := Reference.runtime) "tenantA"
               Reference.telemetry_event Reference.w0)).
Proof.
  apply (handle_event_data_ignores_metadata_tenant (RT := Reference.runtime)
           "tenantA" Reference.telemetry_event Reference.telemetry_event_other_tenant
           (env1 := [("metadata", VDict [("deviceid", VStr "dev1");
                                         ("tenant", VStr "tenantA");
                                         ("timestamp", VInt 1500000000)]);
                     ("attrs", VDict [("temp", VInt 10); ("hum", VInt 50)])])
           (env2 := [("metadata", VDict [("deviceid", VStr "dev1");
                                         ("tenant", VStr "tenantB");
                                         ("timestamp", VInt 1500000000)]);
                     ("attrs", VDict [("temp", VInt 10); ("hum", VInt 50)])])
           (meta1 := [("deviceid", VStr "dev1"); ("tenant", VStr "tenantA");
                      ("timestamp", VInt 1500000000)])
           (meta2 := [("deviceid", VStr "dev1"); ("tenant", VStr "tenantB");
                      ("timestamp", VInt 1500000000)])
           Reference.w0); try reflexivity.
  - intros k Hk. cbn [dict_lookup].
    destruct (String.eqb_spec "metadata" k); [congruence | reflexivity].
  - intros k Hk. cbn [dict_lookup].
    destruct (String.eqb_spec "deviceid" k); [reflexivity |].
    destruct (String.eqb_spec "tenant" k); [congruence | reflexivity].
Defined.

(** The threshold itself: [2^31 - 1] is seconds, [2^31] is milliseconds. *)
Lemma parse_datetime_integer_threshold_witness :
  parse_datetime (RT := Reference.runtime) (VInt 2147483647) Reference.w0 =
    (Ret 2147483647000000, Reference.w0)
  /\ parse_datetime (RT := Reference.runtime) (VInt 2147483648) Reference.w0 =
     (Ret 2147483648000, Reference.w0).
Proof.
  split.
  - apply (proj1 (parse_datetime_integer_threshold (RT := Reference.runtime)
                    2147483647 2147483647000000 Reference.w0))
      with (f := Reference.mk_dec 2147483647 0); [vm_compute; discriminate | |];
      reflexivity.
  - apply (proj2 (parse_datetime_integer_threshold (RT := Reference.runtime)
                    2147483648 2147483648000 Reference.w0))
      with (q := Reference.mk_dec 2147483648000 6); reflexivity.
Defined.

(** The payload [malformed_event] on the telemetry subject. *)
Lemma handle_event_data_malformed_witness :
  handle_event_data (RT := Reference.runtime) "tenantA" Reference.malformed_event
    Reference.w0 =
  (Ret tt,
   emit (Log ERROR ("Received event is not valid JSON. Ignoring" ++ nl ++ "Expecting value"))
     Reference.w0).
Proof.
  apply (handle_event_data_malformed (RT := Reference.runtime) "tenantA"
           Reference.malformed_event (e := mk_exn JSONDecodeError "Expecting value")
           Reference.w0).
  reflexivity.
Defined.

(** Start-up against a client that connects to nothing. *)
Lemma init_mongodb_swallows_witness :
  init_mongodb (RT := Reference.degraded) (Some "tenantA_dev1") Reference.w_fresh =
  (Ret tt,
   mk_world (RT := Reference.degraded) (Some Reference.offline_store) Reference.now_us
     [CreateIndex "tenantA_dev1" ts_descending;
      Log WARN "Could not init mongo db client: No servers found yet"]).
Proof.
  apply (init_mongodb_swallows (RT := Reference.degraded) "t" "enantA_dev1"
           (st := Reference.offline_store) (st' := Reference.offline_store)
           (e := Reference.unreachable) Reference.w_fresh);
    reflexivity.
Defined.

(** The events [event_without_metadata] and [event_without_device]. *)
Lemma handle_event_data_missing_field_witness :
  db_calls
    (trace (snd (handle_event_data (RT := Reference.runtime) "tenantA"
                   Reference.event_without_metadata Reference.w0))) = []
  /\ db_calls
       (trace (snd (handle_event_data (RT := Reference.runtime) "tenantA"
                      Reference.event_without_device Reference.w0))) = [].
Proof.
  split.
  - rewrite (proj1 (handle_event_data_missing_field (RT := Reference.runtime) "tenantA"
                      Reference.event_without_metadata
                      (env := [("attrs", VDict [("temp", VInt 10)])])
                      Reference.w0 eq_refl) eq_refl).
    reflexivity.
  - rewrite (proj2 (handle_event_data_missing_field (RT := Reference.runtime) "tenantA"
                      Reference.event_without_device
                      (env := [("metadata", VDict [("tenant", VStr "tenantA")]);
                               ("attrs", VDict [("temp", VInt 10)])])
                      Reference.w0 eq_refl)
               [("tenant", VStr "tenantA")] eq_refl eq_refl).
    reflexivity.
Defined.

(** * Further properties *)

(** ** The fallback chain of [parse_datetime] *)

Section TimestampFallbacks.
Context {RT : Runtime}.

(** A string that [int] rejects and [float] accepts is read as
    milliseconds, whatever its size; the failed integer reading is logged
    at error level first. *)
Theorem parse_datetime_decimal_string (s : string) (f : float) (dt : datetime)
  (w : world) :
  int_of_str s = None ->
  float_of_str s = Some f ->
  utcfromtimestamp (float_div_int f 1000) = Ret dt ->
  parse_datetime (VStr s) w =
  (Ret dt,
   emit (Log ERROR (failed_to_parse (VStr s) (invalid_int_literal (VStr s)))) w).
Proof.
  intros Hi Hf Hdt.
  unfold parse_datetime, attempt, as_integer_count, as_float_millis, try_except,
    bind, lift, ret, log, py_int, py_float.
  simpl. rewrite Hi. simpl. rewrite Hf, Hdt. reflexivity.
Qed.

(** A date string is normalised by the date parser, after both numeric
    readings have failed and each failure has been logged at error level. *)
Theorem parse_datetime_date_string (s : string) (dt : datetime) (w : world) :
  int_of_str s = None ->
  float_of_str s = None ->
  dateutil_parse (VStr s) = Ret dt ->
  parse_datetime (VStr s) w =
  (Ret dt,
   emit (Log ERROR (failed_to_parse (VStr s) (invalid_float_literal (VStr s))))
     (emit (Log ERROR (failed_to_parse (VStr s) (invalid_int_literal (VStr s)))) w)).
Proof.
  intros Hi Hf Hd.
  unfold parse_datetime, attempt, as_integer_count, as_float_millis, try_except,
    bind, lift, ret, log, py_int, py_float.
  simpl. rewrite Hi. simpl. rewrite Hf. simpl. rewrite Hd. reflexivity.
Qed.

(** An integer up to [2^31 - 1] that has no instant as a count of seconds
    ([utcfromtimestamp] raises a [ValueError]) is read again as milliseconds:
    the threshold does not hold below the range of [datetime]. *)
Theorem parse_datetime_seconds_out_of_range (t : Z) (f : float) (e : exn)
  (dt : datetime) (w : world) :
  t <= max_seconds ->
  float_of_int t = Some f ->
  utcfromtimestamp f = Raise e ->
  isinstance (exn_cls e) ValueError = true ->
  utcfromtimestamp (float_div_int f 1000) = Ret dt ->
  parse_datetime (VInt t) w =
  (Ret dt, emit (Log ERROR (failed_to_parse (VInt t) e)) w).
Proof.
  intros Ht Hf He Hv Hdt.
  unfold parse_datetime, attempt, as_integer_count, as_float_millis, try_except,
    bind, lift, ret, log, py_int, py_gt_int, py_float, int_to_float.
  replace (t >? max_seconds) with false
    by (symmetry; rewrite Z.gtb_ltb; apply Z.ltb_ge; lia).
  cbn [is_None]. rewrite Hf, He. cbn [fst snd]. rewrite Hv, Hdt. reflexivity.
Qed.

(** Whatever the input and whatever the runtime answers, [parse_datetime]
    leaves the store handle and the clock alone and adds at most two entries
    to the trace, all of them error-level log entries. *)
Theorem parse_datetime_logs_at_most_two_errors (timestamp : pyval) (w : world) :
  exists logs,
    db (snd (parse_datetime timestamp w)) = db w /\
    clk (snd (parse_datetime timestamp w)) = clk w /\
    trace (snd (parse_datetime timestamp w)) = (trace w ++ logs)%list /\
    (List.length logs <= 2)%nat /\
    Forall (fun ev => exists msg, ev = Log ERROR msg) logs.
Proof.
  set (P := fun w' : world =>
              exists logs,
                db w' = db w /\ clk w' = clk w /\
                trace w' = (trace w ++ logs)%list /\
                (List.length logs <= 2)%nat /\
                Forall (fun ev : pyevent => exists msg, ev = Log ERROR msg) logs).
  change (P (snd (parse_datetime timestamp w))).
  assert (H0 : P w).
  { exists []. rewrite app_nil_r. repeat split; auto. }
  assert (H1 : forall m, P (emit (Log ERROR m) w)).
  { intros m. exists [Log ERROR m]. repeat split; auto.
    constructor; [now exists m | constructor]. }
  assert (H2 : forall m m', P (emit (Log ERROR m') (emit (Log ERROR m) w))).
  { intros m m'. exists [Log ERROR m; Log ERROR m']. simpl.
    rewrite <- app_assoc. repeat split; auto.
    constructor; [now exists m |]. constructor; [now exists m' | constructor]. }
  clearbody P.
  unfold parse_datetime, attempt, as_integer_count, as_float_millis, try_except,
    bind, lift, ret, raise, log, read_clock.
  repeat (match goal with
          | |- context [is_None ?v] => destruct (is_None v)
          | |- context [py_int ?v] => destruct (py_int v)
          | |- context [py_gt_int ?v ?n] => destruct (py_gt_int v n) as [[|] |]
          | |- context [py_truediv ?a ?b] => destruct (py_truediv a b)
          | |- context [py_float ?v] => destruct (py_float v)
          | |- context [utcfromtimestamp ?q] => destruct (utcfromtimestamp q)
          | |- context [dateutil_parse ?v] => destruct (dateutil_parse v)
          | |- context [isinstance ?c ?d] => destruct (isinstance c d)
          end; cbn [fst snd]);
    first [exact H0 | apply H1 | apply H2].
Qed.

End TimestampFallbacks.

(** ** The branches of [handle_event_data] *)

Section TelemetryBranches.
Context {RT : Runtime}.

(** From the timestamp on: the outcome of normalisation decides between the
    batch and the exception. *)
Lemma handle_event_data_from_timestamp tenant message env meta (dev : pyval)
  (o : outcome datetime) (w : world) :
  json_loads message = Ret (VDict env) ->
  dict_lookup "metadata" env = Some (VDict meta) ->
  dict_lookup "deviceid" meta = Some dev ->
  dev <> VNone ->
  fst (parse_datetime (dict_get "timestamp" meta VNone) w) = o ->
  exists w1,
    log_only w w1 /\
    handle_event_data tenant message w =
    match o with
    | Ret ts => after_timestamp tenant env meta dev ts w1
    | Raise e => (Raise e, w1)
    end.
Proof.
  intros Hjson Hmeta Hdev Hnone Ho.
  rewrite (handle_event_data_to_timestamp tenant message w Hjson Hmeta Hdev Hnone).
  set (w2 := emit _ (emit _ w)).
  assert (H02 : log_only w w2)
    by (eapply log_only_trans; apply log_only_emit).
  pose proof (parse_datetime_quiet (dict_get "timestamp" meta VNone) w2) as H23.
  pose proof (parse_datetime_stable (dict_get "timestamp" meta VNone) H02) as Hst.
  rewrite Ho in Hst. unfold bind.
  destruct (parse_datetime (dict_get "timestamp" meta VNone) w2) as [o' w3].
  simpl in Hst, H23. subst o'.
  exists w3. split; [exact (log_only_trans H02 H23) |].
  destruct o; reflexivity.
Qed.

(** With [attrs] an object (or absent), what follows the timestamp is one
    call of [persist] on the attribute documents and the status document. *)
Lemma after_timestamp_run tenant env meta (dev : pyval) (ts : datetime) attrs
  (w : world) :
  dict_get "attrs" env (VDict []) = VDict attrs ->
  after_timestamp tenant env meta dev ts w =
  persist tenant dev
    (attribute_documents attrs dev ts
       ++ status_documents (dict_get "status" meta VNone) dev ts) w.
Proof.
  intros Hattrs. unfold after_timestamp.
  unfold bind at 1, lift at 1, py_get at 1. rewrite Hattrs.
  unfold bind at 1, lift at 1, py_keys at 1.
  unfold bind at 1.
  rewrite (attribute_loop env dev ts w Hattrs (incl_refl _)).
  unfold bind at 1, lift at 1, py_get at 1.
  unfold attribute_documents, status_documents.
  destruct (is_None (dict_get "status" meta VNone)).
  - now rewrite app_nil_r.
  - reflexivity.
Qed.

(** A payload that is JSON but not an object is not dropped: [data.get]
    raises [AttributeError], which leaves the handler after the payload has
    been logged. *)
Theorem handle_event_data_not_an_object tenant message (data : pyval)
  (w : world) :
  json_loads message = Ret data ->
  (forall d, data <> VDict d) ->
  handle_event_data tenant message w =
  (Raise (no_attribute data "get"),
   emit (Log DEBUG ("got data event " ++ message))
     (emit (Log INFO ("THIS IS THE DATA: " ++ py_str data)) w)).
Proof.
  intros Hjson Hnot. unfold handle_event_data.
  erewrite bind_Ret by (apply decode_event_Ret; exact Hjson).
  unfold handle_decoded, bind, lift, log, py_get.
  destruct data; try reflexivity. now destruct (Hnot d).
Qed.

(** A timestamp that cannot be normalised is fatal to its event and to
    nothing else: the exception of [parse_datetime] leaves the handler, and
    the world has only gained log entries. *)
Theorem handle_event_data_timestamp_error_escapes tenant message env meta
  (dev : pyval) (e : exn) (w : world) :
  json_loads message = Ret (VDict env) ->
  dict_lookup "metadata" env = Some (VDict meta) ->
  dict_lookup "deviceid" meta = Some dev ->
  dev <> VNone ->
  fst (parse_datetime (dict_get "timestamp" meta VNone) w) = Raise e ->
  fst (handle_event_data tenant message w) = Raise e
  /\ log_only w (snd (handle_event_data tenant message w)).
Proof.
  intros Hjson Hmeta Hdev Hnone Hts.
  destruct (handle_event_data_from_timestamp tenant message w Hjson Hmeta Hdev Hnone Hts)
    as (w1 & Hlog & Hrun).
  rewrite Hrun. split; [reflexivity | exact Hlog].
Qed.

(** The batch of an event: the attribute documents in key order, then the
    status document if there is a status, all stamped with the one
    normalised timestamp and written by a single [insert_many]. *)
Theorem handle_event_data_batch tenant message env meta (dev : pyval)
  (ts : datetime) attrs (st : store) (w : world) :
  json_loads message = Ret (VDict env) ->
  dict_lookup "metadata" env = Some (VDict meta) ->
  dict_lookup "deviceid" meta = Some dev ->
  dev <> VNone ->
  fst (parse_datetime (dict_get "timestamp" meta VNone) w) = Ret ts ->
  dict_get "attrs" env (VDict []) = VDict attrs ->
  db w = Some st ->
  fst (handle_event_data tenant message w) = Ret tt
  /\ db_calls (trace (snd (handle_event_data tenant message w))) =
     (db_calls (trace w)
        ++ batch_calls (collection_name_of tenant dev)
             (attribute_documents attrs dev ts
                ++ status_documents (dict_get "status" meta VNone) dev ts))%list.
Proof.
  intros Hjson Hmeta Hdev Hnone Hts Hattrs Hdb.
  destruct (handle_event_data_from_timestamp tenant message w Hjson Hmeta Hdev Hnone Hts)
    as (w1 & (Hdb1 & _ & logs & Ht & Hlogs) & Hrun).
  rewrite Hrun, (after_timestamp_run tenant env meta dev ts w1 Hattrs).
  split; [apply persist_returns |].
  erewrite persist_db_calls by (rewrite Hdb1; exact Hdb).
  now rewrite Ht, db_calls_app, Hlogs, app_nil_r.
Qed.

(** An event whose metadata has no timestamp (or a null one) is stamped
    with the clock: every document of its batch carries [utcnow]. *)
Theorem handle_event_data_default_timestamp tenant message env meta
  (dev : pyval) attrs (st : store) (w : world) :
  json_loads message = Ret (VDict env) ->
  dict_lookup "metadata" env = Some (VDict meta) ->
  dict_lookup "deviceid" meta = Some dev ->
  dev <> VNone ->
  dict_get "timestamp" meta VNone = VNone ->
  dict_get "attrs" env (VDict []) = VDict attrs ->
  db w = Some st ->
  db_calls (trace (snd (handle_event_data tenant message w))) =
  (db_calls (trace w)
     ++ batch_calls (collection_name_of tenant dev)
          (attribute_documents attrs dev (utcnow (clk w))
             ++ status_documents (dict_get "status" meta VNone) dev (utcnow (clk w))))%list.
Proof.
  intros Hjson Hmeta Hdev Hnone Hts Hattrs Hdb.
  assert (Hnow : fst (parse_datetime (dict_get "timestamp" meta VNone) w) =
                 Ret (utcnow (clk w))) by (rewrite Hts; reflexivity).
  destruct (handle_event_data_from_timestamp tenant message w Hjson Hmeta Hdev Hnone Hnow)
    as (w1 & (Hdb1 & _ & logs & Ht & Hlogs) & Hrun).
  rewrite Hrun, (after_timestamp_run tenant env meta dev _ w1 Hattrs).
  erewrite persist_db_calls by (rewrite Hdb1; exact Hdb).
  now rewrite Ht, db_calls_app, Hlogs, app_nil_r.
Qed.

(** A failed bulk write is swallowed: [insert_many] is called once, its
    error is logged as a warning, and the handler returns. *)
Theorem handle_event_data_insert_failure_swallowed tenant message env meta
  (dev : pyval) (ts : datetime) attrs d docs (st st' : store) (e : exn)
  (w : world) :
  json_loads message = Ret (VDict env) ->
  dict_lookup "metadata" env = Some (VDict meta) ->
  dict_lookup "deviceid" meta = Some dev ->
  dev <> VNone ->
  fst (parse_datetime (dict_get "timestamp" meta VNone) w) = Ret ts ->
  dict_get "attrs" env (VDict []) = VDict attrs ->
  (attribute_documents attrs dev ts
     ++ status_documents (dict_get "status" meta VNone) dev ts)%list = d :: docs ->
  db w = Some st ->
  insert_many st (collection_name_of tenant dev) (d :: docs) = (Raise e, st') ->
  exists w1,
    log_only w w1 /\
    handle_event_data tenant message w =
    (Ret tt,
     mk_world (Some st') (clk w)
       (trace w1
          ++ [InsertMany (collection_name_of tenant dev) (d :: docs);
              Log WARN ("Failed to persist received information." ++ nl ++ exn_msg e)])).
Proof.
  intros Hjson Hmeta Hdev Hnone Hts Hattrs Hdocs Hdb Hins.
  destruct (handle_event_data_from_timestamp tenant message w Hjson Hmeta Hdev Hnone Hts)
    as (w1 & Hlog & Hrun).
  exists w1. split; [exact Hlog |].
  rewrite Hrun, (after_timestamp_run tenant env meta dev ts w1 Hattrs), Hdocs.
  destruct Hlog as (Hdb1 & Hclk1 & _).
  unfold persist, try_except, db_insert_many. rewrite Hdb1, Hdb, Hins.
  unfold log, emit. cbn [fst snd db clk trace isinstance].
  now rewrite Hclk1, <- app_assoc.
Qed.

(** Without a store handle (after a failed [init_mongodb]) a non-empty batch
    is dropped with a warning: [insert_many] is never reached and the
    handler returns. *)
Theorem handle_event_data_without_store tenant message env meta (dev : pyval)
  (ts : datetime) attrs d docs (w : world) :
  json_loads message = Ret (VDict env) ->
  dict_lookup "metadata" env = Some (VDict meta) ->
  dict_lookup "deviceid" meta = Some dev ->
  dev <> VNone ->
  fst (parse_datetime (dict_get "timestamp" meta VNone) w) = Ret ts ->
  dict_get "attrs" env (VDict []) = VDict attrs ->
  (attribute_documents attrs dev ts
     ++ status_documents (dict_get "status" meta VNone) dev ts)%list = d :: docs ->
  db w = None ->
  exists w1,
    log_only w w1 /\
    handle_event_data tenant message w =
    (Ret tt,
     emit (Log WARN ("Failed to persist received information." ++ nl
                       ++ exn_msg not_subscriptable)) w1).
Proof.
  intros Hjson Hmeta Hdev Hnone Hts Hattrs Hdocs Hdb.
  destruct (handle_event_data_from_timestamp tenant message w Hjson Hmeta Hdev Hnone Hts)
    as (w1 & Hlog & Hrun).
  exists w1. split; [exact Hlog |].
  rewrite Hrun, (after_timestamp_run tenant env meta dev ts w1 Hattrs), Hdocs.
  destruct Hlog as (Hdb1 & _).
  unfold persist, try_except, db_insert_many. rewrite Hdb1, Hdb. reflexivity.
Qed.

(** An [attrs] that is present but not an object (null, an array, a number)
    is not read as empty: [.keys()] raises [AttributeError], which leaves the
    handler, and nothing is written. *)
Theorem handle_event_data_attrs_not_an_object tenant message env meta
  (dev a : pyval) (ts : datetime) (w : world) :
  json_loads message = Ret (VDict env) ->
  dict_lookup "metadata" env = Some (VDict meta) ->
  dict_lookup "deviceid" meta = Some dev ->
  dev <> VNone ->
  fst (parse_datetime (dict_get "timestamp" meta VNone) w) = Ret ts ->
  dict_lookup "attrs" env = Some a ->
  (forall d, a <> VDict d) ->
  fst (handle_event_data tenant message w) = Raise (no_attribute a "keys")
  /\ log_only w (snd (handle_event_data tenant message w)).
Proof.
  intros Hjson Hmeta Hdev Hnone Hts Hattrs Hnot.
  destruct (handle_event_data_from_timestamp tenant message w Hjson Hmeta Hdev Hnone Hts)
    as (w1 & Hlog & Hrun).
  rewrite Hrun. unfold after_timestamp, bind, lift, py_get, dict_get.
  rewrite Hattrs. unfold py_keys.
  destruct a; try (split; [reflexivity | exact Hlog]).
  now destruct (Hnot d).
Qed.

End TelemetryBranches.

(** ** One bulk write per telemetry event *)

Section TelemetryShape.
Context {RT : Runtime}.

Lemma ends_in_persist_quiet tenant (m : M unit) :
  quiet m -> ends_in_persist tenant m.
Proof. intros H w. exists (snd (m w)). split; [apply H | now left]. Qed.

Lemma ends_in_persist_persist tenant (device_id : pyval) docs :
  ends_in_persist tenant (persist tenant device_id docs).
Proof.
  intros w. exists w. split; [apply log_only_refl | right].
  now exists device_id, docs.
Qed.

Lemma ends_in_persist_bind {A : Type} tenant (m : M A) (k : A -> M unit) :
  quiet m -> (forall a, ends_in_persist tenant (k a)) ->
  ends_in_persist tenant (bind m k).
Proof.
  intros Hm Hk w. unfold bind. specialize (Hm w).
  destruct (m w) as [[a | e] w']; simpl in Hm.
  - destruct (Hk a w') as (w1 & Hlog & H). exists w1.
    split; [exact (log_only_trans Hm Hlog) | exact H].
  - exists w'. split; [exact Hm | now left].
Qed.

Lemma handle_decoded_ends_in_persist tenant message (data : pyval) :
  ends_in_persist tenant (handle_decoded tenant message data).
Proof.
  unfold handle_decoded.
  repeat first
    [ progress cbv zeta
    | apply ends_in_persist_persist
    | apply ends_in_persist_bind; [| intros ?]
    | apply parse_datetime_quiet
    | apply (steps_for_each log_only_refl log_only_trans); intros ?
    | apply ends_in_persist_quiet, quiet_log
    | quiet_step
    | branch ].
Qed.

Lemma handle_event_data_ends_in_persist tenant message :
  ends_in_persist tenant (handle_event_data tenant message).
Proof.
  unfold handle_event_data.
  apply ends_in_persist_bind.
  - unfold decode_event. repeat quiet_step.
  - intros [data |].
    + apply handle_decoded_ends_in_persist.
    + apply ends_in_persist_quiet. quiet_step.
Qed.

(** Whatever the payload, the telemetry handler leaves the clock alone and
    makes at most one store call: an [insert_many] of a non-empty batch into
    a collection named from its [tenant] argument.  It never creates an
    index and never writes an empty batch. *)
Theorem handle_event_data_at_most_one_write tenant message (w : world) :
  clk (snd (handle_event_data tenant message w)) = clk w
  /\ exists calls,
       db_calls (trace (snd (handle_event_data tenant message w))) =
         (db_calls (trace w) ++ calls)%list
       /\ (calls = []
           \/ exists device_id d docs,
                calls = [InsertMany (collection_name_of tenant device_id) (d :: docs)]).
Proof.
  destruct (handle_event_data_ends_in_persist tenant message w)
    as (w1 & Hlog & [Hsnd | (dev & docs & Hrun)]).
  - rewrite Hsnd. split; [apply Hlog |]. exists [].
    split; [| now left]. now rewrite app_nil_r, (log_only_db_calls Hlog).
  - rewrite Hrun. pose proof (log_only_db_calls Hlog) as Hcalls.
    destruct Hlog as (_ & Hclk & _).
    split.
    + rewrite <- Hclk. apply (persist_writes_into tenant dev docs w1).
    + destruct (db w1) as [st |] eqn:Hdb.
      * exists (batch_calls (collection_name_of tenant dev) docs). split.
        -- now rewrite (persist_db_calls tenant dev docs w1 Hdb), Hcalls.
        -- destruct docs as [| d docs]; [now left | right]. now exists dev, d, docs.
      * exists []. split; [| now left]. rewrite app_nil_r, <- Hcalls.
        destruct docs as [| d docs].
        -- rewrite persist_empty. simpl. apply db_calls_log.
        -- unfold persist, try_except, db_insert_many. rewrite Hdb.
           simpl. apply db_calls_log.
Qed.

(** Without a store handle the telemetry handler makes no store call and
    leaves the handle unset, whatever the payload. *)
Lemma handle_event_data_no_store tenant message (w : world) :
  db w = None ->
  db (snd (handle_event_data tenant message w)) = None
  /\ db_calls (trace (snd (handle_event_data tenant message w))) = db_calls (trace w).
Proof.
  intros Hdb.
  destruct (handle_event_data_ends_in_persist tenant message w)
    as (w1 & Hlog & [Hsnd | (dev & docs & Hrun)]).
  - rewrite Hsnd. destruct Hlog as (Hdb1 & ?). split; [congruence |].
    now apply log_only_db_calls; repeat split.
  - rewrite Hrun. pose proof (log_only_db_calls Hlog) as Hcalls.
    destruct Hlog as (Hdb1 & _). rewrite Hdb in Hdb1.
    destruct docs as [| d docs].
    + rewrite persist_empty. simpl. split; [exact Hdb1 |].
      now rewrite db_calls_log.
    + unfold persist, try_except, db_insert_many. rewrite Hdb1. simpl.
      split; [exact Hdb1 |]. now rewrite db_calls_log.
Qed.

End TelemetryShape.

(** ** The branches of [handle_event_devices] *)

Section LifecycleBranches.
Context {RT : Runtime}.

(** The lifecycle handler up to its test of the event name. *)
Lemma handle_event_devices_dispatch tenant message env ev (w : world) :
  json_loads message = Ret (VDict env) ->
  dict_lookup "event" env = Some ev ->
  handle_event_devices tenant message w =
  (if ne_str ev "configure" then
     meta <- lift (py_getitem (VDict env) "meta") ;;
     service <- lift (py_getitem meta "service") ;;
     d <- lift (py_getitem (VDict env) "data") ;;
     id <- lift (py_getitem d "id") ;;
     create_indexes (py_str service ++ "_" ++ py_str id)
   else
     new_message <- parse_message (VDict env) ;;
     handle_event_data tenant new_message)
    (emit (Log INFO ("got device event " ++ py_str (VDict env))) w).
Proof.
  intros Hjson Hev. unfold handle_event_devices.
  unfold bind at 1, lift at 1. rewrite Hjson.
  unfold bind at 1, log at 1.
  unfold bind at 1, lift at 1. rewrite (py_getitem_dict _ _ Hev).
  reflexivity.
Qed.

(** A lifecycle envelope without an ["event"] key is not dispatched at all:
    [KeyError] leaves the handler and the store is not called. *)
Theorem handle_event_devices_missing_event tenant message env (w : world) :
  json_loads message = Ret (VDict env) ->
  dict_lookup "event" env = None ->
  handle_event_devices tenant message w =
  (Raise (mk_exn KeyError "'event'"),
   emit (Log INFO ("got device event " ++ py_str (VDict env))) w).
Proof.
  intros Hjson Hev. unfold handle_event_devices, bind, lift, log, py_getitem at 1.
  rewrite Hjson. cbn [fst snd]. now rewrite Hev.
Qed.

(** The collection name is worked out before the store is called: on a
    non-configure event without [meta.service], or without [data.id],
    [KeyError] leaves the handler and no index is asked for. *)
Theorem handle_event_devices_missing_field tenant message env ev meta
  (w : world) :
  json_loads message = Ret (VDict env) ->
  dict_lookup "event" env = Some ev ->
  ne_str ev "configure" = true ->
  dict_lookup "meta" env = Some (VDict meta) ->
  (dict_lookup "service" meta = None ->
   handle_event_devices tenant message w =
   (Raise (mk_exn KeyError "'service'"),
    emit (Log INFO ("got device event " ++ py_str (VDict env))) w))
  /\ (forall svc dat,
        dict_lookup "service" meta = Some svc ->
        dict_lookup "data" env = Some (VDict dat) ->
        dict_lookup "id" dat = None ->
        handle_event_devices tenant message w =
        (Raise (mk_exn KeyError "'id'"),
         emit (Log INFO ("got device event " ++ py_str (VDict env))) w)).
Proof.
  intros Hjson Hev Hne Hmeta.
  rewrite (handle_event_devices_dispatch tenant message w Hjson Hev), Hne.
  split.
  - intros Hsvc. unfold bind, lift. rewrite (py_getitem_dict _ _ Hmeta).
    unfold py_getitem. now rewrite Hsvc.
  - intros svc dat Hsvc Hdat Hid. unfold bind, lift.
    rewrite (py_getitem_dict _ _ Hmeta), (py_getitem_dict _ _ Hsvc),
      (py_getitem_dict _ _ Hdat).
    unfold py_getitem. now rewrite Hid.
Qed.

(** Without a store handle the lifecycle handler does what the telemetry
    handler does not: the [TypeError] of [self.db[...]] leaves it. *)
Theorem handle_event_devices_without_store tenant message env ev meta dat
  (svc dev : pyval) (w : world) :
  json_loads message = Ret (VDict env) ->
  dict_lookup "event" env = Some ev ->
  ne_str ev "configure" = true ->
  dict_lookup "meta" env = Some (VDict meta) ->
  dict_lookup "service" meta = Some svc ->
  dict_lookup "data" env = Some (VDict dat) ->
  dict_lookup "id" dat = Some dev ->
  db w = None ->
  handle_event_devices tenant message w =
  (Raise not_subscriptable,
   emit (Log INFO ("got device event " ++ py_str (VDict env))) w).
Proof.
  intros Hjson Hev Hne Hmeta Hsvc Hdat Hdev Hdb.
  rewrite (handle_event_devices_dispatch tenant message w Hjson Hev), Hne.
  unfold bind at 1, lift at 1. rewrite (py_getitem_dict _ _ Hmeta).
  unfold bind at 1, lift at 1. rewrite (py_getitem_dict _ _ Hsvc).
  unfold bind at 1, lift at 1. rewrite (py_getitem_dict _ _ Hdat).
  unfold bind at 1, lift at 1. rewrite (py_getitem_dict _ _ Hdev).
  unfold create_indexes, bind, db_create_index. cbn [emit db]. now rewrite Hdb.
Qed.

(** Provisioning is not atomic: when the expiring index is refused after
    the descending one was created, the error leaves the handler and the
    store keeps the first index. *)
Theorem handle_event_devices_partial_provisioning tenant message env ev meta
  dat (svc dev : pyval) (st st1 st2 : store) (e : exn) (w : world) :
  json_loads message = Ret (VDict env) ->
  dict_lookup "event" env = Some ev ->
  ne_str ev "configure" = true ->
  dict_lookup "meta" env = Some (VDict meta) ->
  dict_lookup "service" meta = Some svc ->
  dict_lookup "data" env = Some (VDict dat) ->
  dict_lookup "id" dat = Some dev ->
  db w = Some st ->
  create_index st (py_str svc ++ "_" ++ py_str dev) ts_descending = (Ret tt, st1) ->
  create_index st1 (py_str svc ++ "_" ++ py_str dev) ts_expire = (Raise e, st2) ->
  handle_event_devices tenant message w =
  (Raise e,
   mk_world (Some st2) (clk w)
     (trace w ++ [Log INFO ("got device event " ++ py_str (VDict env));
                  CreateIndex (py_str svc ++ "_" ++ py_str dev) ts_descending;
                  CreateIndex (py_str svc ++ "_" ++ py_str dev) ts_expire])).
Proof.
  intros Hjson Hev Hne Hmeta Hsvc Hdat Hdev Hdb H1 H2.
  rewrite (handle_event_devices_dispatch tenant message w Hjson Hev), Hne.
  unfold bind at 1, lift at 1. rewrite (py_getitem_dict _ _ Hmeta).
  unfold bind at 1, lift at 1. rewrite (py_getitem_dict _ _ Hsvc).
  unfold bind at 1, lift at 1. rewrite (py_getitem_dict _ _ Hdat).
  unfold bind at 1, lift at 1. rewrite (py_getitem_dict _ _ Hdev).
  rewrite (create_indexes_run _ (st := st)) by exact Hdb.
  rewrite H1, H2. unfold emit. cbn [fst snd db clk trace].
  now rewrite <- app_assoc.
Qed.

(** A ["configure"] event whose [data.id] is null is reshaped, then dropped
    by the telemetry path as an event without a device: an error entry, no
    store call, no exception. *)
Theorem handle_event_devices_configure_null_id tenant message env dat meta
  (attrs svc : pyval) (w : world) :
  json_loads message = Ret (VDict env) ->
  dict_lookup "event" env = Some (VStr "configure") ->
  dict_lookup "data" env = Some (VDict dat) ->
  dict_lookup "attrs" dat = Some attrs ->
  dict_lookup "id" dat = Some VNone ->
  dict_lookup "meta" env = Some (VDict meta) ->
  dict_lookup "service" meta = Some svc ->
  json_loads (json_dumps (parsed_message attrs (time_ms (clk w)) VNone svc)) =
    Ret (parsed_message attrs (time_ms (clk w)) VNone svc) ->
  fst (handle_event_devices tenant message w) = Ret tt
  /\ log_only w (snd (handle_event_devices tenant message w))
  /\ exists w1,
       trace (snd (handle_event_devices tenant message w)) =
       (trace w1
          ++ [Log ERROR "Received event cannot be traced to a valid device. Ignoring"])%list.
Proof.
  intros Hjson Hev Hdat Hattrs Hid Hmeta Hsvc Hround.
  rewrite (handle_event_devices_dispatch tenant message w Hjson Hev).
  cbn [ne_str String.eqb Ascii.eqb Bool.eqb negb].
  set (w1 := emit _ w).
  erewrite bind_Ret
    by (apply (parse_message_run env w1 Hdat Hattrs Hid Hmeta Hsvc)).
  change (clk w1) with (clk w).
  set (w2 := emit _ w1).
  unfold handle_event_data.
  erewrite bind_Ret by (apply decode_event_Ret; exact Hround).
  unfold handle_decoded, bind, lift, log, py_get, parsed_message.
  cbn [dict_get dict_lookup String.eqb Ascii.eqb Bool.eqb is_None fst snd].
  split; [reflexivity | split].
  - repeat (eapply log_only_trans; [| apply log_only_emit]).
    apply log_only_refl.
  - match goal with
    | |- exists _, trace (emit _ ?W) = _ => exists W
    end.
    reflexivity.
Qed.

End LifecycleBranches.

(** ** Start-up and sharding *)

Section StartUp.
Context {RT : Runtime}.

(** [init_mongodb] contains every failure: whether the client cannot be
    built or an index cannot be created, it returns. *)
Theorem init_mongodb_never_raises (collection_name : option string) (w : world) :
  fst (init_mongodb collection_name w) = Ret tt.
Proof.
  unfold init_mongodb, try_except, bind, lift, set_db, log.
  destruct MongoClient as [st | e]; [| reflexivity]. cbn [fst snd].
  destruct collection_name as [[| c s] |]; try reflexivity.
  rewrite (create_indexes_run (String c s) (st := st)) by reflexivity.
  destruct (create_index st (String c s) ts_descending) as [[[] | e] st1];
    [| reflexivity].
  destruct (create_index st1 (String c s) ts_expire) as [[[] | e] st2];
    reflexivity.
Qed.

(** When the client cannot be built the persister stays without a store
    handle, and a telemetry event handled afterwards makes no store call,
    whatever its payload: the service runs on, persisting nothing. *)
Theorem init_mongodb_failure_then_event (collection_name : option string)
  tenant message (e : exn) (w : world) :
  MongoClient = Raise e ->
  db w = None ->
  db (snd (bind (init_mongodb collection_name)
             (fun _ => handle_event_data tenant message) w)) = None
  /\ db_calls
       (trace (snd (bind (init_mongodb collection_name)
                      (fun _ => handle_event_data tenant message) w))) =
     db_calls (trace w).
Proof.
  intros Hc Hdb.
  assert (Hinit : init_mongodb collection_name w =
                  (Ret tt,
                   emit (Log WARN ("Could not init mongo db client: " ++ exn_msg e)) w)).
  { unfold init_mongodb, try_except, bind, lift. now rewrite Hc. }
  erewrite !bind_Ret by exact Hinit.
  destruct (handle_event_data_no_store tenant message
              (emit (Log WARN ("Could not init mongo db client: " ++ exn_msg e)) w) Hdb)
    as [H1 H2].
  split; [exact H1 |]. rewrite H2. apply db_calls_log.
Qed.

(** [enable_collection_sharding] stops at its first failure: without a
    store handle nothing is asked of the store; if the hashed index is
    refused no admin command is run; if [enableSharding] is refused
    [shardCollection] is not run. *)
Theorem enable_collection_sharding_stops_at_first_failure
  (run_command : store -> admin_command -> outcome unit * store)
  (collection_name : string) (w : world) :
  (db w = None ->
   enable_collection_sharding run_command collection_name w =
   (Raise not_subscriptable, w))
  /\ (forall st st1 e,
        db w = Some st ->
        create_index st collection_name attr_hashed = (Raise e, st1) ->
        enable_collection_sharding run_command collection_name w =
        (Raise e,
         mk_world (Some st1) (clk w)
           (trace w ++ [CreateIndex collection_name attr_hashed])))
  /\ (forall st st1 st2 e,
        db w = Some st ->
        create_index st collection_name attr_hashed = (Ret tt, st1) ->
        run_command st1 (EnableSharding db_name) = (Raise e, st2) ->
        enable_collection_sharding run_command collection_name w =
        (Raise e,
         mk_world (Some st2) (clk w)
           (trace w ++ [CreateIndex collection_name attr_hashed]))).
Proof.
  unfold enable_collection_sharding, bind, db_create_index, client_admin_command.
  split; [| split].
  - intros Hdb. now rewrite Hdb.
  - intros st st1 e Hdb Hix. now rewrite Hdb, Hix.
  - intros st st1 st2 e Hdb Hix Hcmd. rewrite Hdb, Hix. cbn [db]. now rewrite Hcmd.
Qed.

(** When the store accepts all three requests, the collection is sharded
    under its full name ["device_history.<collection>"] by the hashed
    [attr] key, after sharding was enabled on ["device_history"]; the only
    call on the collection itself is the creation of the hashed index. *)
Theorem enable_collection_sharding_run
  (run_command : store -> admin_command -> outcome unit * store)
  (collection_name : string) (st st1 st2 st3 : store) (w : world) :
  db w = Some st ->
  create_index st collection_name attr_hashed = (Ret tt, st1) ->
  run_command st1 (EnableSharding "device_history") = (Ret tt, st2) ->
  run_command st2
    (ShardCollection ("device_history." ++ collection_name) [("attr", "hashed")]) =
    (Ret tt, st3) ->
  enable_collection_sharding run_command collection_name w =
  (Ret tt,
   mk_world (Some st3) (clk w) (trace w ++ [CreateIndex collection_name attr_hashed])).
Proof.
  intros Hdb Hix H1 H2.
  unfold enable_collection_sharding.
  change (full_name collection_name) with ("device_history." ++ collection_name).
  change db_name with "device_history".
  unfold bind, db_create_index, client_admin_command.
  rewrite Hdb, Hix. cbn [db]. rewrite H1. cbn [db]. now rewrite H2.
Qed.

End StartUp.

(** ** The further properties on the reference runtime *)

(** The string ["1500000000000.5"] is 2017-07-14T02:40:00.0005Z. *)
Lemma parse_datetime_decimal_string_witness :
  parse_datetime (RT := Reference.runtime) (VStr "1500000000000.5") Reference.w0 =
  (Ret 1500000000000500,
   emit (Log ERROR ("Failed to parse timestamp (1500000000000.5)" ++ nl
                      ++ "invalid literal for int() with base 10: '1500000000000.5'"))
     Reference.w0).
Proof.
  apply (parse_datetime_decimal_string (RT := Reference.runtime) "1500000000000.5"
           (f := Reference.mk_dec 15000000000005 1) Reference.w0);
    reflexivity.
Defined.

(** The string ["2020-02-29"]. *)
Lemma parse_datetime_date_string_witness :
  parse_datetime (RT := Reference.runtime) (VStr "2020-02-29") Reference.w0 =
  (Ret 1582934400000000,
   emit (Log ERROR ("Failed to parse timestamp (2020-02-29)" ++ nl
                      ++ "could not convert string to float: '2020-02-29'"))
     (emit (Log ERROR ("Failed to parse timestamp (2020-02-29)" ++ nl
                         ++ "invalid literal for int() with base 10: '2020-02-29'"))
        Reference.w0)).
Proof.
  apply (parse_datetime_date_string (RT := Reference.runtime) "2020-02-29"
           Reference.w0);
    reflexivity.
Defined.

(** The integer [-10^12]: no year holds it as seconds; as milliseconds it is
    1938-04-24T22:13:20Z. *)
Lemma parse_datetime_seconds_out_of_range_witness :
  parse_datetime (RT := Reference.runtime) (VInt (-1000000000000)) Reference.w0 =
  (Ret (-1000000000000000),
   emit (Log ERROR ("Failed to parse timestamp (-1000000000000)" ++ nl
                      ++ "year is out of range"))
     Reference.w0).
Proof.
  apply (parse_datetime_seconds_out_of_range (RT := Reference.runtime)
           (t := -1000000000000) (f := Reference.mk_dec (-1000000000000) 0)
           (e := mk_exn ValueError "year is out of range") Reference.w0);
    try reflexivity.
  vm_compute. discriminate.
Defined.

(** The payload [array_event]. *)
Lemma handle_event_data_not_an_object_witness :
  handle_event_data (RT := Reference.runtime) "tenantA" Cases.array_event
    Reference.w0 =
  (Raise (mk_exn AttributeError "'list' object has no attribute 'get'"),
   emit (Log DEBUG "got data event [1, 2]")
     (emit (Log INFO "THIS IS THE DATA: [1, 2]") Reference.w0)).
Proof.
  apply (handle_event_data_not_an_object (RT := Reference.runtime) "tenantA"
           Cases.array_event (data := VList [VInt 1; VInt 2]) Reference.w0);
    [reflexivity | discriminate].
Defined.

(** The event [event_with_string_timestamp]: the numeric string is fatal to
    the event. *)
Lemma handle_event_data_timestamp_error_escapes_witness :
  fst (handle_event_data (RT := Reference.runtime) "tenantA"
         Cases.event_with_string_timestamp Reference.w0) =
    Raise (mk_exn TypeError "'>' not supported between instances of 'str' and 'int'")
  /\ log_only Reference.w0
       (snd (handle_event_data (RT := Reference.runtime) "tenantA"
               Cases.event_with_string_timestamp Reference.w0)).
Proof.
  apply (handle_event_data_timestamp_error_escapes (RT := Reference.runtime) "tenantA"
           Cases.event_with_string_timestamp
           (env := [("metadata", VDict [("deviceid", VStr "dev1");
                                        ("timestamp", VStr "1500000000")]);
                    ("attrs", VDict [("temp", VInt 10)])])
           (meta := [("deviceid", VStr "dev1"); ("timestamp", VStr "1500000000")])
           (dev := VStr "dev1") Reference.w0);
    try reflexivity; discriminate.
Defined.

(** The event [event_with_status]: the attribute document, then the status
    document, in one batch. *)
Lemma handle_event_data_batch_witness :
  fst (handle_event_data (RT := Reference.runtime) "tenantA" Cases.event_with_status
         Reference.w0) = Ret tt
  /\ db_calls
       (trace (snd (handle_event_data (RT := Reference.runtime) "tenantA"
                      Cases.event_with_status Reference.w0))) =
     [InsertMany "tenantA_dev1"
        [AttrDoc "temp" (VInt 10) (VStr "dev1") 1500000000000000;
         StatusDoc (VStr "online") (VStr "dev1") 1500000000000000]].
Proof.
  apply (handle_event_data_batch (RT := Reference.runtime) "tenantA"
           Cases.event_with_status
           (env := [("metadata", VDict [("deviceid", VStr "dev1");
                                        ("timestamp", VInt 1500000000);
                                        ("status", VStr "online")]);
                    ("attrs", VDict [("temp", VInt 10)])])
           (meta := [("deviceid", VStr "dev1"); ("timestamp", VInt 1500000000);
                     ("status", VStr "online")])
           (dev := VStr "dev1") (ts := 1500000000000000)
           (attrs := [("temp", VInt 10)])
           (st := Reference.empty_store) Reference.w0);
    try reflexivity; discriminate.
Defined.

(** The event [event_without_timestamp], handled at [now_us]. *)
Lemma handle_event_data_default_timestamp_witness :
  db_calls
    (trace (snd (handle_event_data (RT := Reference.runtime) "tenantA"
                   Cases.event_without_timestamp Reference.w0))) =
  [InsertMany "tenantA_dev1"
     [AttrDoc "temp" (VInt 10) (VStr "dev1") Reference.now_us]].
Proof.
  apply (handle_event_data_default_timestamp (RT := Reference.runtime) "tenantA"
           Cases.event_without_timestamp
           (env := [("metadata", VDict [("deviceid", VStr "dev1")]);
                    ("attrs", VDict [("temp", VInt 10)])])
           (meta := [("deviceid", VStr "dev1")])
           (dev := VStr "dev1") (attrs := [("temp", VInt 10)])
           (st := Reference.empty_store) Reference.w0);
    try reflexivity; discriminate.
Defined.

(** The event [telemetry_event] with the store unreachable. *)
Lemma handle_event_data_insert_failure_swallowed_witness :
  exists w1,
    log_only Reference.w_offline w1 /\
    handle_event_data (RT := Reference.runtime) "tenantA" Reference.telemetry_event
      Reference.w_offline =
    (Ret tt,
     mk_world (RT := Reference.runtime) (Some Reference.offline_store)
       Reference.now_us
       (trace w1
          ++ [InsertMany "tenantA_dev1"
                [AttrDoc "temp" (VInt 10) (VStr "dev1") 1500000000000000;
                 AttrDoc "hum" (VInt 50) (VStr "dev1") 1500000000000000];
              Log WARN ("Failed to persist received information." ++ nl
                          ++ "No servers found yet")])).
Proof.
  apply (handle_event_data_insert_failure_swallowed (RT := Reference.runtime) "tenantA"
           Reference.telemetry_event
           (env := [("metadata", VDict [("deviceid", VStr "dev1");
                                        ("tenant", VStr "tenantA");
                                        ("timestamp", VInt 1500000000)]);
                    ("attrs", VDict [("temp", VInt 10); ("hum", VInt 50)])])
           (meta := [("deviceid", VStr "dev1"); ("tenant", VStr "tenantA");
                     ("timestamp", VInt 1500000000)])
           (dev := VStr "dev1") (ts := 1500000000000000)
           (attrs := [("temp", VInt 10); ("hum", VInt 50)])
           (st := Reference.offline_store) (st' := Reference.offline_store)
           (e := Reference.unreachable) Reference.w_offline);
    try reflexivity; discriminate.
Defined.

(** The event [telemetry_event] on a persister without a store handle. *)
Lemma handle_event_data_without_store_witness :
  exists w1,
    log_only Cases.w_uninitialised w1 /\
    handle_event_data (RT := Reference.runtime) "tenantA" Reference.telemetry_event
      Cases.w_uninitialised =
    (Ret tt,
     emit (Log WARN ("Failed to persist received information." ++ nl
                       ++ "'NoneType' object is not subscriptable")) w1).
Proof.
  apply (handle_event_data_without_store (RT := Reference.runtime) "tenantA"
           Reference.telemetry_event
           (env := [("metadata", VDict [("deviceid", VStr "dev1");
                                        ("tenant", VStr "tenantA");
                                        ("timestamp", VInt 1500000000)]);
                    ("attrs", VDict [("temp", VInt 10); ("hum", VInt 50)])])
           (meta := [("deviceid", VStr "dev1"); ("tenant", VStr "tenantA");
                     ("timestamp", VInt 1500000000)])
           (dev := VStr "dev1") (ts := 1500000000000000)
           (attrs := [("temp", VInt 10); ("hum", VInt 50)])
           (d := AttrDoc "temp" (VInt 10) (VStr "dev1") 1500000000000000)
           (docs := [AttrDoc "hum" (VInt 50) (VStr "dev1") 1500000000000000])
           Cases.w_uninitialised);
    try reflexivity; discriminate.
Defined.

(** The event [event_with_null_attrs]. *)
Lemma handle_event_data_attrs_not_an_object_witness :
  fst (handle_event_data (RT := Reference.runtime) "tenantA"
         Cases.event_with_null_attrs Reference.w0) =
    Raise (mk_exn AttributeError "'NoneType' object has no attribute 'keys'")
  /\ log_only Reference.w0
       (snd (handle_event_data (RT := Reference.runtime) "tenantA"
               Cases.event_with_null_attrs Reference.w0)).
Proof.
  apply (handle_event_data_attrs_not_an_object (RT := Reference.runtime) "tenantA"
           Cases.event_with_null_attrs
           (env := [("metadata", VDict [("deviceid", VStr "dev1");
                                        ("timestamp", VInt 1500000000)]);
                    ("attrs", VNone)])
           (meta := [("deviceid", VStr "dev1"); ("timestamp", VInt 1500000000)])
           (dev := VStr "dev1") (a := VNone) (ts := 1500000000000000) Reference.w0);
    try reflexivity; discriminate.
Defined.

(** The event [lifecycle_without_event]. *)
Lemma handle_event_devices_missing_event_witness :
  handle_event_devices (RT := Reference.runtime) "tenantA"
    Cases.lifecycle_without_event Reference.w0 =
  (Raise (mk_exn KeyError "'event'"),
   emit (Log INFO "got device event {'meta': {'service': 'tenantA'}, 'data': {'id': 'dev1'}}")
     Reference.w0).
Proof.
  apply (handle_event_devices_missing_event (RT := Reference.runtime) "tenantA"
           Cases.lifecycle_without_event
           (env := [("meta", VDict [("service", VStr "tenantA")]);
                    ("data", VDict [("id", VStr "dev1")])])
           Reference.w0);
    reflexivity.
Defined.

(** The event [lifecycle_without_id]. *)
Lemma handle_event_devices_missing_field_witness :
  handle_event_devices (RT := Reference.runtime) "tenantA" Cases.lifecycle_without_id
    Reference.w0 =
  (Raise (mk_exn KeyError "'id'"),
   emit (Log INFO "got device event {'event': 'create', 'meta': {'service': 'tenantA'}, 'data': {}}")
     Reference.w0).
Proof.
  apply (proj2 (handle_event_devices_missing_field (RT := Reference.runtime) "tenantA"
                  Cases.lifecycle_without_id
                  (env := [("event", VStr "create");
                           ("meta", VDict [("service", VStr "tenantA")]);
                           ("data", VDict [])])
                  (ev := VStr "create") (meta := [("service", VStr "tenantA")])
                  Reference.w0 eq_refl eq_refl eq_refl eq_refl)
           (VStr "tenantA") []);
    reflexivity.
Defined.

(** The event [create_event] on a persister without a store handle. *)
Lemma handle_event_devices_without_store_witness :
  handle_event_devices (RT := Reference.runtime) "tenantA" Reference.create_event
    Cases.w_uninitialised =
  (Raise (mk_exn TypeError "'NoneType' object is not subscriptable"),
   emit (Log INFO "got device event {'event': 'create', 'meta': {'service': 'tenantA'}, 'data': {'id': 'dev1'}}")
     Cases.w_uninitialised).
Proof.
  apply (handle_event_devices_without_store (RT := Reference.runtime) "tenantA"
           Reference.create_event
           (env := [("event", VStr "create");
                    ("meta", VDict [("service", VStr "tenantA")]);
                    ("data", VDict [("id", VStr "dev1")])])
           (ev := VStr "create") (meta := [("service", VStr "tenantA")])
           (dat := [("id", VStr "dev1")]) (svc := VStr "tenantA") (dev := VStr "dev1")
           Cases.w_uninitialised);
    reflexivity.
Defined.

(** The event [create_event] on a store that refuses the expiring index. *)
Lemma handle_event_devices_partial_provisioning_witness :
  handle_event_devices (RT := Cases.picky) "tenantA" Reference.create_event
    Cases.w_picky =
  (Raise (mk_exn PyMongoError "cannot create index"),
   mk_world (RT := Cases.picky)
     (Some (Reference.mk_mongo true [("tenantA_dev1", ts_descending)] []))
     Reference.now_us
     [Log INFO "got device event {'event': 'create', 'meta': {'service': 'tenantA'}, 'data': {'id': 'dev1'}}";
      CreateIndex "tenantA_dev1" ts_descending;
      CreateIndex "tenantA_dev1" (ts_expire (RT := Cases.picky))]).
Proof.
  apply (handle_event_devices_partial_provisioning (RT := Cases.picky) "tenantA"
           Reference.create_event
           (env := [("event", VStr "create");
                    ("meta", VDict [("service", VStr "tenantA")]);
                    ("data", VDict [("id", VStr "dev1")])])
           (ev := VStr "create") (meta := [("service", VStr "tenantA")])
           (dat := [("id", VStr "dev1")]) (svc := VStr "tenantA") (dev := VStr "dev1")
           (st := Reference.empty_store)
           (st1 := Reference.mk_mongo true [("tenantA_dev1", ts_descending)] [])
           (st2 := Reference.mk_mongo true [("tenantA_dev1", ts_descending)] [])
           (e := mk_exn PyMongoError "cannot create index") Cases.w_picky);
    reflexivity.
Defined.

(** The event [configure_with_null_id]. *)
Lemma handle_event_devices_configure_null_id_witness :
  fst (handle_event_devices (RT := Reference.runtime) "tenantA"
         Cases.configure_with_null_id Reference.w0) = Ret tt
  /\ log_only Reference.w0
       (snd (handle_event_devices (RT := Reference.runtime) "tenantA"
               Cases.configure_with_null_id Reference.w0))
  /\ exists w1,
       trace (snd (handle_event_devices (RT := Reference.runtime) "tenantA"
                     Cases.configure_with_null_id Reference.w0)) =
       (trace w1
          ++ [Log ERROR "Received event cannot be traced to a valid device. Ignoring"])%list.
Proof.
  apply (handle_event_devices_configure_null_id (RT := Reference.runtime) "tenantA"
           Cases.configure_with_null_id
           (env := [("event", VStr "configure");
                    ("meta", VDict [("service", VStr "tenantA")]);
                    ("data", VDict [("id", VNone);
                                    ("attrs", VDict [("fw", VStr "1.2")])])])
           (dat := [("id", VNone); ("attrs", VDict [("fw", VStr "1.2")])])
           (meta := [("service", VStr "tenantA")])
           (attrs := VDict [("fw", VStr "1.2")]) (svc := VStr "tenantA")
           Reference.w0);
    reflexivity.
Defined.

(** Start-up without a client, then the event [telemetry_event]. *)
Lemma init_mongodb_failure_then_event_witness :
  db (snd (bind (init_mongodb (RT := Cases.clientless) None)
             (fun _ => handle_event_data "tenantA" Reference.telemetry_event)
             Cases.w_clientless)) = None
  /\ db_calls
       (trace (snd (bind (init_mongodb (RT := Cases.clientless) None)
                      (fun _ => handle_event_data "tenantA" Reference.telemetry_event)
                      Cases.w_clientless))) = [].
Proof.
  apply (init_mongodb_failure_then_event (RT := Cases.clientless) None "tenantA"
           Reference.telemetry_event (e := mk_exn PyMongoError "Invalid URI")
           Cases.w_clientless);
    reflexivity.
Defined.

(** Sharding ["tenantA_dev1"] on a deployment that accepts it. *)
Lemma enable_collection_sharding_run_witness :
  enable_collection_sharding (RT := Reference.runtime) Cases.sharded "tenantA_dev1"
    Reference.w0 =
  (Ret tt,
   mk_world (RT := Reference.runtime)
     (Some (Reference.mk_mongo true [("tenantA_dev1", attr_hashed)] []))
     Reference.now_us [CreateIndex "tenantA_dev1" attr_hashed]).
Proof.
  apply (enable_collection_sharding_run (RT := Reference.runtime) Cases.sharded
           "tenantA_dev1" (st := Reference.empty_store)
           (st1 := Reference.mk_mongo true [("tenantA_dev1", attr_hashed)] [])
           (st2 := Reference.mk_mongo true [("tenantA_dev1", attr_hashed)] [])
           Reference.w0);
    reflexivity.
Defined.

(** Sharding on a deployment that refuses it: the hashed index is created,
    [enableSharding] is refused, and the error is the caller's. *)
Lemma enable_collection_sharding_stops_at_first_failure_witness :
  enable_collection_sharding (RT := Reference.runtime) Cases.no_sharding "tenantA_dev1"
    Reference.w0 =
  (Raise (mk_exn PyMongoError "no such command"),
   mk_world (RT := Reference.runtime)
     (Some (Reference.mk_mongo true [("tenantA_dev1", attr_hashed)] []))
     Reference.now_us [CreateIndex "tenantA_dev1" attr_hashed]).
Proof.
  apply (proj2 (proj2 (enable_collection_sharding_stops_at_first_failure
                         (RT := Reference.runtime) Cases.no_sharding "tenantA_dev1"
                         Reference.w0))
           Reference.empty_store
           (Reference.mk_mongo true [("tenantA_dev1", attr_hashed)] [])
           (Reference.mk_mongo true [("tenantA_dev1", attr_hashed)] []));
    reflexivity.
Defined.
